(** * aws-console: the credential workflow, the federation client and the
      launchers, embedded as finite interaction programs.

    Source files embedded here:
      - pkg/aws/types.go       (Identity, Credentials, the two interfaces)
      - pkg/aws/federation.go  (FederationClient.BuildConsoleURL)
      - pkg/aws/service.go     (SDKService and its three methods)
      - cmd/root.go            (runDeps, runWorkflow, ssoLogin, openBrowser,
                                newRootCmd, defaultRunDeps)

    Every method call on an interface value, and every call of a function
    value held in [runDeps], is a call to the outside of the function under
    study.  Such a call is an element of [call]; a Go function body becomes
    a [prog]: a finite tree that either returns or performs a call and
    continues with whatever the outside answered.  An execution is a list
    of [event]s (calls with their answers) together with the returned
    value; [runs] relates a program to all of its executions, with no
    assumption on the answers. *)

From Stdlib Require Import String Ascii List ZArith Lia Bool DecimalString.
Import ListNotations.
Open Scope string_scope.
Open Scope list_scope.

(** ** Go values *)

(** A non-nil Go [error].  [errorString] is what [errors.New] and
    [fmt.Errorf] without a [%w] verb build; [wrapError] is what
    [fmt.Errorf] with [%w] builds: a message and the wrapped error.
    The nil error is [None] in [option error]. *)
Inductive error : Type :=
| errorString (s : string)
| wrapError (msg : string) (err : error).

Definition Error (e : error) : string :=
  match e with
  | errorString s => s
  | wrapError msg _ => msg
  end.

(** [fmt.Errorf(prefix + "%w", err)] *)
Definition Errorf_w (prefix : string) (err : error) : error :=
  wrapError (prefix ++ Error err) err.

(** The [%d] verb on an integer. *)
Definition Sprintd (z : Z) : string := NilZero.string_of_int (Z.to_int z).

(** [context.Context]: the workflow only passes it along. *)
Inductive Context : Type :=
| Background.

(** An [io.Reader] or [io.Writer] interface value, named by a number. *)
Inductive handle : Type :=
| Handle (id : nat).

(** ** pkg/aws/types.go *)

Record Identity : Type := { Arn : string }.

Record Credentials : Type := {
  AccessKeyID : string;
  SecretAccessKey : string;
  SessionToken : string
}.

(** ** net/http values seen by the federation client *)

Record Request : Type := { Method : string; URL : string }.

Record Response : Type := { StatusCode : Z; Body : handle }.

Definition StatusOK : Z := 200.
Definition MethodGet : string := "GET".

(** ** Calls to the outside

    The index of [call] is the Go result type; a Go result [(T, error)] is
    the pair [T * option error], as the callee hands back both values. *)
Inductive call : Type -> Type :=
(* awslib.Service *)
| GetCallerIdentity (ctx : Context) (profile : string)
    : call (Identity * option error)
| RetrieveCredentials (ctx : Context) (profile : string)
    : call (Credentials * option error)
| GetSessionToken (ctx : Context) (profile : string) (durationSeconds : Z)
    : call (Credentials * option error)
(* awslib.FederationURLBuilder *)
| FederationBuildConsoleURL (ctx : Context) (creds : Credentials)
                            (durationSeconds : Z)
    : call (string * option error)
(* runDeps.login, runDeps.open *)
| Login (profile : string) : call (option error)
| Open (targetURL : string) : call (option error)
(* Executor *)
| ExecutorRun (name : string) (args : list string)
              (stdin stdout stderr : handle)
    : call (option error)
| ExecutorStart (name : string) (args : list string) : call (option error)
(* io.Writer.Write, as performed by fmt.Fprintln and fmt.Fprintf *)
| Write (w : handle) (p : string) : call (Z * option error)
(* federationHTTPClient.Do, io.ReadAll on a body, Body.Close *)
| Do (req : Request) : call (Response * option error)
| ReadAll (r : handle) : call (string * option error)
| Close (r : handle) : call (option error).

(** A call together with its answer: what an observer of one execution
    records. *)
Inductive event : Type :=
| EvGetCallerIdentity (ctx : Context) (profile : string)
                      (out : Identity * option error)
| EvRetrieveCredentials (ctx : Context) (profile : string)
                        (out : Credentials * option error)
| EvGetSessionToken (ctx : Context) (profile : string) (durationSeconds : Z)
                    (out : Credentials * option error)
| EvBuildConsoleURL (ctx : Context) (creds : Credentials)
                    (durationSeconds : Z) (out : string * option error)
| EvLogin (profile : string) (out : option error)
| EvOpen (targetURL : string) (out : option error)
| EvRun (name : string) (args : list string) (stdin stdout stderr : handle)
        (out : option error)
| EvStart (name : string) (args : list string) (out : option error)
| EvWrite (w : handle) (p : string) (out : Z * option error)
| EvDo (req : Request) (out : Response * option error)
| EvReadAll (r : handle) (out : string * option error)
| EvClose (r : handle) (out : option error).

Definition observe {X : Type} (c : call X) : X -> event :=
  match c in call X return X -> event with
  | GetCallerIdentity ctx profile => EvGetCallerIdentity ctx profile
  | RetrieveCredentials ctx profile => EvRetrieveCredentials ctx profile
  | GetSessionToken ctx profile d => EvGetSessionToken ctx profile d
  | FederationBuildConsoleURL ctx creds d => EvBuildConsoleURL ctx creds d
  | Login profile => EvLogin profile
  | Open targetURL => EvOpen targetURL
  | ExecutorRun name args i o e => EvRun name args i o e
  | ExecutorStart name args => EvStart name args
  | Write w p => EvWrite w p
  | Do req => EvDo req
  | ReadAll r => EvReadAll r
  | Close r => EvClose r
  end.

(** ** Programs *)

Inductive prog (R : Type) : Type :=
| Ret (r : R)
| Vis (X : Type) (c : call X) (k : X -> prog R).

Arguments Ret {R} r.
Arguments Vis {R X} c k.

Fixpoint bind {A B : Type} (p : prog A) (f : A -> prog B) : prog B :=
  match p with
  | Ret a => f a
  | Vis c k => Vis c (fun x => bind (k x) f)
  end.

Definition trigger {X : Type} (c : call X) : prog X := Vis c Ret.

Declare Scope prog_scope.
Delimit Scope prog_scope with prog.
Bind Scope prog_scope with prog.

Notation "x <- p ;; q" := (bind p (fun x => q))
  (at level 61, p at next level, right associativity) : prog_scope.
Notation "' pat <- p ;; q" := (bind p (fun x => match x with pat => q end))
  (at level 61, pat pattern, p at next level, right associativity)
  : prog_scope.
Notation "p ;; q" := (bind p (fun _ => q))
  (at level 61, right associativity) : prog_scope.

Open Scope prog_scope.

(** ** Executions *)

Definition trace : Type := list event.

(** [runs p t r]: [p] can perform exactly the events [t], in this order,
    and then return [r].  The answers in [t] are arbitrary. *)
Fixpoint runs {R : Type} (p : prog R) (t : trace) (r : R) : Prop :=
  match p with
  | Ret r' => t = [] /\ r = r'
  | Vis c k => exists x t', t = observe c x :: t' /\ runs (k x) t' r
  end.

(** An outside with a state of its own answers every call. *)
Definition handler (S : Type) : Type := forall X : Type, call X -> S -> X * S.

Fixpoint interp {S R : Type} (h : handler S) (p : prog R) (s : S)
  : R * S * trace :=
  match p with
  | Ret r => (r, s, [])
  | Vis c k =>
      let '(x, s') := h _ c s in
      let '(r, s'', t) := interp h (k x) s' in
      (r, s'', observe c x :: t)
  end.

(** ** fmt *)

(** [fmt.Fprintln(w, s)]: one write of [s] and a newline; the code drops
    the byte count and the error. *)
Definition newline : string := String (ascii_of_nat 10) EmptyString.

Definition Fprintln (w : handle) (s : string) : prog (Z * option error) :=
  trigger (Write w (s ++ newline)).

(** [fmt.Fprintf(w, format, ...)] once the format is expanded to [s]. *)
Definition Fprintf (w : handle) (s : string) : prog (Z * option error) :=
  trigger (Write w s).

(** ** cmd/root.go *)

(** 12 hours (max for federation) *)
Definition sessionDuration : Z := 43200.

(** [runDeps].  Its fields [awsService], [federation], [login], [open] and
    [executor] hold the collaborators: calling them is a [call], so they
    are the outside and not data of the record. *)
Record runDeps : Type := {
  goos : string;
  stdin : handle;
  stdout : handle;
  stderr : handle;
  deps_sessionDuration : Z
}.

Definition runWorkflow (ctx : Context) (profile : string) (deps : runDeps)
  : prog (option error) :=
  (* lines 122-145, reached from both arms of the first [if] *)
  let authenticated (identity : Identity) : prog (option error) :=
    Fprintf (stdout deps) ("Authenticated as: " ++ Arn identity ++ newline) ;;
    '(creds, err) <- trigger (RetrieveCredentials ctx profile) ;;
    match err with
    | Some err =>
        Ret (Some (Errorf_w "failed to retrieve credentials: " err))
    | None =>
        let federate (creds : Credentials) : prog (option error) :=
          '(loginURL, err) <-
             trigger (FederationBuildConsoleURL ctx creds
                        (deps_sessionDuration deps)) ;;
          match err with
          | Some err =>
              Ret (Some (Errorf_w "failed to build console URL: " err))
          | None =>
              Fprintln (stdout deps) "Opening AWS Console in your browser..." ;;
              trigger (Open loginURL)
          end in
        if SessionToken creds =? "" then
          Fprintln (stdout deps)
            "No session token found, requesting temporary credentials..." ;;
          '(creds, err) <-
             trigger (GetSessionToken ctx profile
                        (deps_sessionDuration deps)) ;;
          match err with
          | Some err =>
              Ret (Some (Errorf_w "failed to get temporary credentials: " err))
          | None => federate creds
          end
        else federate creds
    end in
  '(identity, err) <- trigger (GetCallerIdentity ctx profile) ;;
  match err with
  | Some _ =>
      Fprintln (stderr deps)
        "Credentials are not valid, attempting SSO login..." ;;
      loginErr <- trigger (Login profile) ;;
      match loginErr with
      | Some loginErr => Ret (Some (Errorf_w "SSO login failed: " loginErr))
      | None =>
          '(identity, err) <- trigger (GetCallerIdentity ctx profile) ;;
          match err with
          | Some err =>
              Ret (Some (Errorf_w
                           "credentials still invalid after SSO login: " err))
          | None => authenticated identity
          end
      end
  | None => authenticated identity
  end.

(** [ssoLogin] shells out to the AWS CLI to perform an SSO login. *)
Definition ssoLogin (profile : string) (deps : runDeps)
  : prog (option error) :=
  let args := ["sso"; "login"] in
  let args := if negb (profile =? "")
              then args ++ ["--profile"; profile]
              else args in
  trigger (ExecutorRun "aws" args (stdin deps) (stdout deps) (stderr deps)).

(** [openBrowser] opens the given URL in the user's default browser. *)
Definition openBrowser (targetURL : string) (deps : runDeps)
  : prog (option error) :=
  let start (command : string) (args : list string) :=
    let args := args ++ [targetURL] in
    trigger (ExecutorStart command args) in
  if goos deps =? "darwin" then start "open" []
  else if goos deps =? "linux" then start "xdg-open" []
  else if goos deps =? "windows"
       then start "rundll32" ["url.dll,FileProtocolHandler"]
  else Ret (Some (errorString ("unsupported platform: " ++ goos deps))).

(** ** pkg/aws/federation.go *)

Definition defaultFederationURL : string :=
  "https://signin.aws.amazon.com/federation".
Definition defaultConsoleURL : string := "https://console.aws.amazon.com/".

(** [FederationClient].  Its field [client] is the HTTP collaborator:
    [f.client.Do] is the call [Do]. *)
Record FederationClient : Type := {
  federationURL : string;
  consoleURL : string
}.

Definition newFederationClient (federationURL consoleURL : string)
  : FederationClient :=
  {| federationURL := federationURL; consoleURL := consoleURL |}.

Definition NewFederationClient : FederationClient :=
  newFederationClient defaultFederationURL defaultConsoleURL.

(** The anonymous struct [tokenResp] of [BuildConsoleURL]. *)
Record tokenResp : Type := { SigninToken : string }.

(** The functions of Go's standard library that [BuildConsoleURL] calls.
    They are pure; their code is not part of the repository, so the
    development is parametric in them.  [sessionData], a
    [map[string]string], is handed to [json_Marshal] as its entries;
    [json_Unmarshal data v] is [json.Unmarshal(data, &v)], giving the
    updated [v]. *)
Class GoLib : Type := {
  json_Marshal : list (string * string) -> string * option error;
  json_Unmarshal : string -> tokenResp -> tokenResp * option error;
  url_QueryEscape : string -> string;
  http_NewRequestWithContext :
    Context -> string -> string -> Request * option error
}.

(** [defer d] around the rest [p] of a function body: [d] runs when [p]
    returns, and the function returns what [p] returned. *)
Definition defer {A R : Type} (d : prog A) (p : prog R) : prog R :=
  r <- p ;; d ;; Ret r.

Definition BuildConsoleURL `{GoLib} (f : FederationClient) (ctx : Context)
    (creds : Credentials) (durationSeconds : Z)
  : prog (string * option error) :=
  let sessionData := [ ("sessionId", AccessKeyID creds);
                       ("sessionKey", SecretAccessKey creds);
                       ("sessionToken", SessionToken creds) ] in
  let '(sessionJSON, err) := json_Marshal sessionData in
  match err with
  | Some err => Ret ("", Some (Errorf_w "failed to marshal session: " err))
  | None =>
  let tokenURL : string :=
    (federationURL f ++ "?Action=getSigninToken&SessionDuration="
       ++ Sprintd durationSeconds
       ++ "&Session=" ++ url_QueryEscape sessionJSON)%string in
  let '(req, err) := http_NewRequestWithContext ctx MethodGet tokenURL in
  match err with
  | Some err =>
      Ret ("", Some (Errorf_w "failed to build federation request: " err))
  | None =>
  '(resp, err) <- trigger (Do req) ;;
  match err with
  | Some err =>
      Ret ("", Some (Errorf_w "failed to request signin token: " err))
  | None =>
  defer (trigger (Close (Body resp))) (
    '(body, err) <- trigger (ReadAll (Body resp)) ;;
    match err with
    | Some err =>
        Ret ("", Some (Errorf_w "failed to read federation response: " err))
    | None =>
    if negb (StatusCode resp =? StatusOK)%Z then
      Ret ("", Some (errorString
                       ("federation endpoint returned HTTP "
                          ++ Sprintd (StatusCode resp) ++ ": " ++ body)))
    else
    let '(tokenResp, err) := json_Unmarshal body {| SigninToken := "" |} in
    match err with
    | Some err =>
        Ret ("", Some (Errorf_w "failed to parse signin token response: " err))
    | None =>
    if SigninToken tokenResp =? "" then
      Ret ("", Some (errorString
                       "received empty signin token from federation endpoint"))
    else
      let loginURL : string :=
        (federationURL f
           ++ "?Action=login&Issuer=aws-console-cli&Destination="
           ++ url_QueryEscape (consoleURL f)
           ++ "&SigninToken=" ++ url_QueryEscape (SigninToken tokenResp))%string
      in
      Ret (loginURL, None)
    end
    end)
  end
  end
  end.

(** [defaultRunDeps], for a given value of [runtime.GOOS]; [os.Stdin],
    [os.Stdout] and [os.Stderr] are the handles 0, 1 and 2. *)
Definition defaultRunDeps (GOOS : string) : runDeps :=
  {| goos := GOOS;
     stdin := Handle 0;
     stdout := Handle 1;
     stderr := Handle 2;
     deps_sessionDuration := sessionDuration |}.

(** In [defaultRunDeps] the fields [login] and [open] are closures over
    [ssoLogin] and [openBrowser] on the same dependencies: these programs
    answer the calls [Login] and [Open] in production. *)
Definition defaultLogin (GOOS : string) (profile : string)
  : prog (option error) :=
  ssoLogin profile (defaultRunDeps GOOS).

Definition defaultOpen (GOOS : string) (targetURL : string)
  : prog (option error) :=
  openBrowser targetURL (defaultRunDeps GOOS).

(** ** Observations on a trace *)

Definition failed {A : Type} (out : A * option error) : bool :=
  match snd out with Some _ => true | None => false end.

Definition isGetCallerIdentity (e : event) : bool :=
  match e with EvGetCallerIdentity _ _ _ => true | _ => false end.

Definition isLogin (e : event) : bool :=
  match e with EvLogin _ _ => true | _ => false end.

Definition isGetSessionToken (e : event) : bool :=
  match e with EvGetSessionToken _ _ _ _ => true | _ => false end.

Definition countGetCallerIdentity (t : trace) : nat :=
  length (filter isGetCallerIdentity t).

Definition countLogin (t : trace) : nat := length (filter isLogin t).

Definition countGetSessionToken (t : trace) : nat :=
  length (filter isGetSessionToken t).

(** The identity checks and logins of a trace, in the order they happened. *)
Definition authCalls (t : trace) : trace :=
  filter (fun e => isGetCallerIdentity e || isLogin e) t.

(** The first identity check of the trace failed. *)
Definition firstCheckFailed (t : trace) : bool :=
  match authCalls t with
  | EvGetCallerIdentity _ _ out :: _ => failed out
  | _ => false
  end.

(** The login of the trace, when there is one, returned nil. *)
Definition loginSucceeded (t : trace) : bool :=
  existsb (fun e => match e with EvLogin _ None => true | _ => false end) t.

(** The second identity check of the trace failed. *)
Definition secondCheckFailed (t : trace) : bool :=
  match filter isGetCallerIdentity t with
  | _ :: EvGetCallerIdentity _ _ out :: _ => failed out
  | _ => false
  end.


(** [failingStep pre e]: the event [e], which happened after the events
    [pre], is the failure of one of the steps that abort the workflow: the
    login, the identity re-check that follows a login, the retrieval of
    credentials, the temporary-credentials request, or the building of
    the console URL. *)
Definition failingStep (pre : trace) (e : event) : bool :=
  match e with
  | EvLogin _ (Some _) => true
  | EvGetCallerIdentity _ _ (_, Some _) => existsb isLogin pre
  | EvRetrieveCredentials _ _ (_, Some _) => true
  | EvGetSessionToken _ _ _ (_, Some _) => true
  | EvBuildConsoleURL _ _ _ (_, Some _) => true
  | _ => false
  end.

(** The URLs that BuildConsoleURL returned with a nil error, and the URLs
    handed to the browser opener, in order. *)
Definition builtURLs (t : trace) : list string :=
  flat_map (fun e => match e with
                     | EvBuildConsoleURL _ _ _ (u, None) => [u]
                     | _ => []
                     end) t.

Definition openedURLs (t : trace) : list string :=
  flat_map (fun e => match e with EvOpen u _ => [u] | _ => [] end) t.



(** Two runs of the workflow, one after the other, in one process. *)
Definition runTwice (ctx : Context) (profile : string) (deps : runDeps)
  : prog (option error * option error) :=
  r1 <- runWorkflow ctx profile deps ;;
  r2 <- runWorkflow ctx profile deps ;;
  Ret (r1, r2).

(** The retry behaviour as the specification words it: a failed first
    identity check is followed by exactly one login and then exactly one
    more identity check, whose failure makes the workflow return an
    error; at most two checks, at most one login, and no login after a
    successful first check. *)
Definition retryAsSpecified : Prop :=
  forall (ctx : Context) (profile : string) (deps : runDeps)
         (t : trace) (r : option error),
    runs (runWorkflow ctx profile deps) t r ->
    (firstCheckFailed t = true ->
       countLogin t = 1
       /\ countGetCallerIdentity t = 2
       /\ (secondCheckFailed t = true -> r <> None))
    /\ countGetCallerIdentity t <= 2
    /\ countLogin t <= 1
    /\ (firstCheckFailed t = false -> countLogin t = 0).

(** ** Example executions *)

Definition exampleIdentity : Identity :=
  {| Arn := "arn:aws:iam::123456789012:user/test" |}.

Definition longLivedCreds : Credentials :=
  {| AccessKeyID := "AKIA_LONG"; SecretAccessKey := "long-secret";
     SessionToken := "" |}.

Definition temporaryCreds : Credentials :=
  {| AccessKeyID := "AKIA_TEMP"; SecretAccessKey := "temp-secret";
     SessionToken := "temp-token" |}.

Definition sessionCreds : Credentials :=
  {| AccessKeyID := "AKIA_TEST"; SecretAccessKey := "secret";
     SessionToken := "token" |}.

Definition zeroIdentity : Identity := {| Arn := "" |}.
Definition zeroCredentials : Credentials :=
  {| AccessKeyID := ""; SecretAccessKey := ""; SessionToken := "" |}.

(** "returns login error" of [TestRunWorkflow]: the identity check fails
    and so does the login. *)
Definition loginFailsTrace : trace :=
  [ EvGetCallerIdentity Background "dev-profile"
      (zeroIdentity, Some (errorString "bad creds"));
    EvWrite (Handle 2)
      ("Credentials are not valid, attempting SSO login..." ++ newline)
      (51%Z, None);
    EvLogin "dev-profile" (Some (errorString "sso failed")) ].

Definition loginFailsResult : option error :=
  Some (wrapError "SSO login failed: sso failed" (errorString "sso failed")).

(** "falls back to SSO and requests session token" of [TestRunWorkflow]. *)
Definition fallbackTrace : trace :=
  [ EvGetCallerIdentity Background "dev-profile"
      (zeroIdentity, Some (errorString "expired token"));
    EvWrite (Handle 2)
      ("Credentials are not valid, attempting SSO login..." ++ newline)
      (51%Z, None);
    EvLogin "dev-profile" None;
    EvGetCallerIdentity Background "dev-profile" (exampleIdentity, None);
    EvWrite (Handle 1)
      ("Authenticated as: arn:aws:iam::123456789012:user/test" ++ newline)
      (54%Z, None);
    EvRetrieveCredentials Background "dev-profile" (longLivedCreds, None);
    EvWrite (Handle 1)
      ("No session token found, requesting temporary credentials..."
         ++ newline)
      (60%Z, None);
    EvGetSessionToken Background "dev-profile" 43200 (temporaryCreds, None);
    EvBuildConsoleURL Background temporaryCreds 43200
      ("https://example.com/federated", None);
    EvWrite (Handle 1) ("Opening AWS Console in your browser..." ++ newline)
      (39%Z, None);
    EvOpen "https://example.com/federated" None ].

(** "happy path with existing session token" of [TestRunWorkflow]. *)
Definition happyTrace : trace :=
  [ EvGetCallerIdentity Background "dev-profile" (exampleIdentity, None);
    EvWrite (Handle 1)
      ("Authenticated as: arn:aws:iam::123456789012:user/test" ++ newline)
      (54%Z, None);
    EvRetrieveCredentials Background "dev-profile" (sessionCreds, None);
    EvBuildConsoleURL Background sessionCreds 43200
      ("https://example.com/console-login", None);
    EvWrite (Handle 1) ("Opening AWS Console in your browser..." ++ newline)
      (39%Z, None);
    EvOpen "https://example.com/console-login" None ].

(** "returns error when retrieving credentials fails" of
    [TestRunWorkflow]: the service hands back the zero credentials and an
    error, as [SDKService.RetrieveCredentials] does. *)
Definition retrieveFailsTrace : trace :=
  [ EvGetCallerIdentity Background "dev-profile" (exampleIdentity, None);
    EvWrite (Handle 1)
      ("Authenticated as: arn:aws:iam::123456789012:user/test" ++ newline)
      (54%Z, None);
    EvRetrieveCredentials Background "dev-profile"
      (zeroCredentials, Some (errorString "retrieve failed")) ].

(** ** A library instance for the examples

    [QueryEscape] follows [net/url]: letters, digits and [-_.~] are kept,
    a space becomes [+], every other byte becomes [%XX] in upper-case
    hexadecimal.  The JSON functions cover the bodies that occur in
    [federation_test.go]: a marshaller for string maps whose keys and
    values need no escaping, and a decoder for bodies of the exact form
    of a one-field object holding the sign-in token. *)

Definition dquote : string := String (ascii_of_nat 34) EmptyString.

Definition upperhex : string := "0123456789ABCDEF".

Definition hexDigit (n : nat) : ascii :=
  match String.get n upperhex with
  | Some c => c
  | None => "0"%char
  end.

Definition shouldEscape (c : ascii) : bool :=
  let n := nat_of_ascii c in
  if (((97 <=? n) && (n <=? 122)) || ((65 <=? n) && (n <=? 90))
      || ((48 <=? n) && (n <=? 57)))%nat
  then false
  else if ((n =? 45) || (n =? 95) || (n =? 46) || (n =? 126))%nat
  then false
  else true.

Fixpoint QueryEscape (s : string) : string :=
  match s with
  | EmptyString => EmptyString
  | String c s' =>
      let n := nat_of_ascii c in
      if (n =? 32)%nat then String "+" (QueryEscape s')
      else if shouldEscape c
      then String "%" (String (hexDigit (n / 16))
                         (String (hexDigit (n mod 16)) (QueryEscape s')))
      else String c (QueryEscape s')
  end.

Fixpoint marshalEntries (entries : list (string * string)) : string :=
  match entries with
  | [] => ""
  | [(k, v)] =>
      (dquote ++ k ++ dquote ++ ":" ++ dquote ++ v ++ dquote)%string
  | (k, v) :: rest =>
      (dquote ++ k ++ dquote ++ ":" ++ dquote ++ v ++ dquote ++ ","
         ++ marshalEntries rest)%string
  end.

Definition marshalPlain (entries : list (string * string))
  : string * option error :=
  (("{" ++ marshalEntries entries ++ "}")%string, None).

Definition tokenPrefix : string :=
  "{" ++ dquote ++ "SigninToken" ++ dquote ++ ":" ++ dquote.

Definition tokenSuffix : string := dquote ++ "}".

Definition unmarshalSigninToken (data : string) (v : tokenResp)
  : tokenResp * option error :=
  let n := String.length data in
  let lp := String.length tokenPrefix in
  if String.prefix tokenPrefix data && (lp + 2 <=? n)%nat
     && (substring (n - 2) 2 data =? tokenSuffix)%string
  then ({| SigninToken := substring lp (n - lp - 2) data |}, None)
  else (v, Some (errorString "invalid character in signin token response")).

Definition exampleLib : GoLib :=
  {| json_Marshal := marshalPlain;
     json_Unmarshal := unmarshalSigninToken;
     url_QueryEscape := QueryEscape;
     http_NewRequestWithContext :=
       fun _ method url => ({| Method := method; URL := url |}, None) |}.

(** The server of [TestFederationClientBuildConsoleURL]. *)
Definition testClient : FederationClient :=
  newFederationClient "http://127.0.0.1:8080"
    "https://console.aws.amazon.com/".

Definition testRequest : Request :=
  {| Method := "GET";
     URL := "http://127.0.0.1:8080?Action=getSigninToken&SessionDuration=3600&Session=%7B%22sessionId%22%3A%22AKIA_TEST%22%2C%22sessionKey%22%3A%22secret%22%2C%22sessionToken%22%3A%22token%22%7D" |}.

Definition successBody : string :=
  "{" ++ dquote ++ "SigninToken" ++ dquote ++ ":" ++ dquote ++ "token-123"
    ++ dquote ++ "}".

(** "success": HTTP 200 with a token. *)
Definition federationSuccessTrace : trace :=
  [ EvDo testRequest ({| StatusCode := 200; Body := Handle 7 |}, None);
    EvReadAll (Handle 7) (successBody, None);
    EvClose (Handle 7) None ].

Definition federationSuccessURL : string :=
  "http://127.0.0.1:8080?Action=login&Issuer=aws-console-cli&Destination=https%3A%2F%2Fconsole.aws.amazon.com%2F&SigninToken=token-123".

(** "non-200 response": HTTP 403 with the body "forbidden". *)
Definition federationForbiddenTrace : trace :=
  [ EvDo testRequest ({| StatusCode := 403; Body := Handle 7 |}, None);
    EvReadAll (Handle 7) ("forbidden", None);
    EvClose (Handle 7) None ].

(** ** Further observations on the workflow *)

(** [errors.Unwrap]: the error wrapped by [fmt.Errorf] with [%w], nil for
    an error that wraps nothing. *)
Definition Unwrap (e : error) : option error :=
  match e with
  | errorString _ => None
  | wrapError _ err => Some err
  end.






(** The error an event answered with, if any. *)
Definition eventError (e : event) : option error :=
  match e with
  | EvGetCallerIdentity _ _ out => snd out
  | EvRetrieveCredentials _ _ out => snd out
  | EvGetSessionToken _ _ _ out => snd out
  | EvBuildConsoleURL _ _ _ out => snd out
  | EvLogin _ out => out
  | EvOpen _ out => out
  | EvRun _ _ _ _ _ out => out
  | EvStart _ _ out => out
  | EvWrite _ _ out => snd out
  | EvDo _ out => snd out
  | EvReadAll _ out => snd out
  | EvClose _ out => out
  end.

Fixpoint lastEvent (t : trace) : option event :=
  match t with
  | [] => None
  | [e] => Some e
  | _ :: t' => lastEvent t'
  end.

(** The text the workflow puts before the cause when the step of event
    [e] fails (lines 113, 118, 126, 134 and 141). *)
Definition stepPrefix (e : event) : string :=
  match e with
  | EvLogin _ _ => "SSO login failed: "
  | EvGetCallerIdentity _ _ _ =>
      "credentials still invalid after SSO login: "
  | EvRetrieveCredentials _ _ _ => "failed to retrieve credentials: "
  | EvGetSessionToken _ _ _ _ => "failed to get temporary credentials: "
  | EvBuildConsoleURL _ _ _ _ => "failed to build console URL: "
  | _ => ""
  end.

Definition isOpen (e : event) : bool :=
  match e with EvOpen _ _ => true | _ => false end.

(** The identity handed back by the last identity check of a trace. *)
Definition lastIdentity (t : trace) : option Identity :=
  match rev (filter isGetCallerIdentity t) with
  | EvGetCallerIdentity _ _ out :: _ => Some (fst out)
  | _ => None
  end.

(** The same trace with other answers to the writes. *)
Definition withWriteAnswers (answer : handle -> string -> Z * option error)
    (t : trace) : trace :=
  map (fun e => match e with
                | EvWrite w p _ => EvWrite w p (answer w p)
                | _ => e
                end) t.


(** ** The root command (cmd/root.go, lines 50-106) *)

Definition workflowRunner : Type :=
  Context -> string -> runDeps -> prog (option error).

(** The [RunE] closure of [newRootCmd deps runner]: [profile] is the value
    of the [--profile] flag after parsing (empty when the flag is absent)
    and [Getenv] is [os.Getenv] on the environment of the process. *)
Definition RunE (Getenv : string -> string) (profile : string)
    (deps : runDeps) (runner : workflowRunner) : prog (option error) :=
  let resolvedProfile := profile in
  let resolvedProfile :=
    if resolvedProfile =? "" then Getenv "AWS_PROFILE"
    else resolvedProfile in
  runner Background resolvedProfile deps.

(** [link h p] is [p] in which every call that [h] knows is answered by
    running the program [h] gives for it; the other calls stay calls to
    the outside. *)
Fixpoint link {R : Type} (h : forall X : Type, call X -> option (prog X))
    (p : prog R) : prog R :=
  match p with
  | Ret r => Ret r
  | Vis c k =>
      match h _ c with
      | Some q => bind q (fun x => link h (k x))
      | None => Vis c (fun x => link h (k x))
      end
  end.

(** The closures that [defaultRunDeps] stores in [login] and [open]. *)
Definition defaultCollaborators (GOOS : string)
  : forall X : Type, call X -> option (prog X) :=
  fun X c =>
    match c in call X return option (prog X) with
    | Login profile => Some (defaultLogin GOOS profile)
    | Open targetURL => Some (defaultOpen GOOS targetURL)
    | _ => None
    end.

(** What [NewRootCmd] runs: [newRootCmd (defaultRunDeps ()) runWorkflow],
    with [login] and [open] bound as in [defaultRunDeps]. *)
Definition NewRootCmd (GOOS : string) (Getenv : string -> string)
    (profile : string) : prog (option error) :=
  link (defaultCollaborators GOOS)
       (RunE Getenv profile (defaultRunDeps GOOS) runWorkflow).

Definition isRun (e : event) : bool :=
  match e with EvRun _ _ _ _ _ _ => true | _ => false end.


(** The profile an event was called with, for the events that have one. *)
Definition profileOf (e : event) : list string :=
  match e with
  | EvGetCallerIdentity _ p _ => [p]
  | EvRetrieveCredentials _ p _ => [p]
  | EvGetSessionToken _ p _ _ => [p]
  | EvLogin p _ => [p]
  | _ => []
  end.

(** An execution of the root command on linux with the [--profile] flag
    set, in which the credentials are expired and the login fails. *)
Definition rootLoginFailsTrace : trace :=
  [ EvGetCallerIdentity Background "flag-profile"
      (zeroIdentity, Some (errorString "expired token"));
    EvWrite (Handle 2)
      ("Credentials are not valid, attempting SSO login..." ++ newline)
      (51%Z, None);
    EvRun "aws" ["sso"; "login"; "--profile"; "flag-profile"]
      (Handle 0) (Handle 1) (Handle 2)
      (Some (errorString "exit status 255")) ].



Definition envProfile (name : string) : string :=
  if name =? "AWS_PROFILE" then "env-profile" else "".

(** ** Further observations on the federation client *)

Definition isDo (e : event) : bool :=
  match e with EvDo _ _ => true | _ => false end.

Definition isClose (e : event) : bool :=
  match e with EvClose _ _ => true | _ => false end.

(** The same trace with another answer to the closing of bodies. *)
Definition withCloseAnswer (answer : option error) (t : trace) : trace :=
  map (fun e => match e with
                | EvClose r _ => EvClose r answer
                | _ => e
                end) t.

(** The session map of [BuildConsoleURL] (lines 47-51), by sorted key. *)
Definition sessionData (creds : Credentials) : list (string * string) :=
  [ ("sessionId", AccessKeyID creds);
    ("sessionKey", SecretAccessKey creds);
    ("sessionToken", SessionToken creds) ].

(** [TestFederationClientBuildConsoleURLClientError]: the client cannot
    reach the endpoint. *)
Definition networkErrorClient : FederationClient :=
  newFederationClient "https://signin.aws.amazon.com/federation"
    "https://console.aws.amazon.com/".

Definition networkErrorRequest : Request :=
  {| Method := "GET";
     URL := "https://signin.aws.amazon.com/federation?Action=getSigninToken&SessionDuration=3600&Session=%7B%22sessionId%22%3A%22AKIA_TEST%22%2C%22sessionKey%22%3A%22secret%22%2C%22sessionToken%22%3A%22token%22%7D" |}.

Definition networkErrorTrace : trace :=
  [ EvDo networkErrorRequest
      ({| StatusCode := 0; Body := Handle 0 |},
       Some (errorString "network error")) ].

(** ** pkg/aws/service.go

    [SDKService] implements [Service] on top of the AWS SDK.  Its
    collaborators are the [configLoader] and the [stsClientFactory] it is
    built with, the STS clients the factory makes and the credentials
    provider of a loaded configuration; calls to them are the elements of
    [SDK.call], and the methods are programs over these calls, built like
    [prog] over [call]. *)
Module SDK.

(** An [awsv2.Config], named by a number; [zeroConfig] is [awsv2.Config{}]. *)
Inductive Config : Type :=
| ConfigOf (id : nat).

Definition zeroConfig : Config := ConfigOf 0.

(** An [stsAPI] client, named by a number. *)
Inductive stsAPI : Type :=
| ClientOf (id : nat).

(** The option functions handed to [LoadDefaultConfig]. *)
Inductive LoadOption : Type :=
| WithSharedConfigProfile (profile : string).

(** [sts.GetCallerIdentityOutput]; a [*string] is an [option string]. *)
Record GetCallerIdentityOutput : Type := { OutputArn : option string }.

(** [ststypes.Credentials] *)
Record stsCredentials : Type := {
  StsAccessKeyId : option string;
  StsSecretAccessKey : option string;
  StsSessionToken : option string
}.

(** [sts.GetSessionTokenOutput]; its [Credentials] field is a pointer. *)
Record GetSessionTokenOutput : Type := {
  OutputCredentials : option stsCredentials
}.

(** [sts.GetSessionTokenInput] *)
Record GetSessionTokenInput : Type := { DurationSeconds : option Z }.

(** [awsv2.Credentials], as handed back by a credentials provider. *)
Record awsCredentials : Type := {
  AwsAccessKeyID : string;
  AwsSecretAccessKey : string;
  AwsSessionToken : string
}.

(** [awsv2.ToString] and [awsv2.Int32] *)
Definition ToString (p : option string) : string :=
  match p with
  | Some s => s
  | None => ""
  end.

Definition Int32 (v : Z) : option Z := Some v.

Inductive call : Type -> Type :=
(* configLoader *)
| LoadDefaultConfig (ctx : Context) (optFns : list LoadOption)
    : call (Config * option error)
(* stsClientFactory *)
| NewFromConfig (cfg : Config) : call stsAPI
(* stsAPI *)
| StsGetCallerIdentity (client : stsAPI) (ctx : Context)
    : call (GetCallerIdentityOutput * option error)
| StsGetSessionToken (client : stsAPI) (ctx : Context)
                     (params : GetSessionTokenInput)
    : call (GetSessionTokenOutput * option error)
(* cfg.Credentials *)
| Retrieve (cfg : Config) (ctx : Context)
    : call (awsCredentials * option error).

Inductive event : Type :=
| EvLoadDefaultConfig (ctx : Context) (optFns : list LoadOption)
                      (out : Config * option error)
| EvNewFromConfig (cfg : Config) (out : stsAPI)
| EvStsGetCallerIdentity (client : stsAPI) (ctx : Context)
                         (out : GetCallerIdentityOutput * option error)
| EvStsGetSessionToken (client : stsAPI) (ctx : Context)
                       (params : GetSessionTokenInput)
                       (out : GetSessionTokenOutput * option error)
| EvRetrieve (cfg : Config) (ctx : Context)
             (out : awsCredentials * option error).

Definition observe {X : Type} (c : call X) : X -> event :=
  match c in call X return X -> event with
  | LoadDefaultConfig ctx optFns => EvLoadDefaultConfig ctx optFns
  | NewFromConfig cfg => EvNewFromConfig cfg
  | StsGetCallerIdentity client ctx => EvStsGetCallerIdentity client ctx
  | StsGetSessionToken client ctx params =>
      EvStsGetSessionToken client ctx params
  | Retrieve cfg ctx => EvRetrieve cfg ctx
  end.

Inductive prog (R : Type) : Type :=
| Ret (r : R)
| Vis (X : Type) (c : call X) (k : X -> prog R).

Arguments Ret {R} r.
Arguments Vis {R X} c k.

Fixpoint bind {A B : Type} (p : prog A) (f : A -> prog B) : prog B :=
  match p with
  | Ret a => f a
  | Vis c k => Vis c (fun x => bind (k x) f)
  end.

Definition trigger {X : Type} (c : call X) : prog X := Vis c Ret.

Definition trace : Type := list event.

Fixpoint runs {R : Type} (p : prog R) (t : trace) (r : R) : Prop :=
  match p with
  | Ret r' => t = [] /\ r = r'
  | Vis c k => exists x t', t = observe c x :: t' /\ runs (k x) t' r
  end.

Declare Scope sdk_scope.
Delimit Scope sdk_scope with sdk.
Bind Scope sdk_scope with prog.

Notation "x <- p ;; q" := (bind p (fun x => q))
  (at level 61, p at next level, right associativity) : sdk_scope.
Notation "' pat <- p ;; q" := (bind p (fun x => match x with pat => q end))
  (at level 61, pat pattern, p at next level, right associativity)
  : sdk_scope.

Definition loadConfig (ctx : Context) (profile : string)
  : prog (Config * option error) :=
  (let opts : list LoadOption := [] in
   let opts := if negb (profile =? "")
               then opts ++ [WithSharedConfigProfile profile]
               else opts in
   '(cfg, err) <- trigger (LoadDefaultConfig ctx opts) ;;
   match err with
   | Some err =>
       Ret (zeroConfig, Some (Errorf_w "failed to load AWS config: " err))
   | None => Ret (cfg, None)
   end)%sdk.

Definition GetCallerIdentity (ctx : Context) (profile : string)
  : prog (Identity * option error) :=
  ('(cfg, err) <- loadConfig ctx profile ;;
   match err with
   | Some err => Ret ({| Arn := "" |}, Some err)
   | None =>
       client <- trigger (NewFromConfig cfg) ;;
       '(out, err) <- trigger (StsGetCallerIdentity client ctx) ;;
       match err with
       | Some err => Ret ({| Arn := "" |}, Some err)
       | None => Ret ({| Arn := ToString (OutputArn out) |}, None)
       end
   end)%sdk.

Definition RetrieveCredentials (ctx : Context) (profile : string)
  : prog (Credentials * option error) :=
  ('(cfg, err) <- loadConfig ctx profile ;;
   match err with
   | Some err =>
       Ret ({| AccessKeyID := ""; SecretAccessKey := "";
               SessionToken := "" |}, Some err)
   | None =>
       '(creds, err) <- trigger (Retrieve cfg ctx) ;;
       match err with
       | Some err =>
           Ret ({| AccessKeyID := ""; SecretAccessKey := "";
                   SessionToken := "" |}, Some err)
       | None =>
           Ret ({| AccessKeyID := AwsAccessKeyID creds;
                   SecretAccessKey := AwsSecretAccessKey creds;
                   SessionToken := AwsSessionToken creds |}, None)
       end
   end)%sdk.

Definition GetSessionToken (ctx : Context) (profile : string)
    (durationSeconds : Z) : prog (Credentials * option error) :=
  ('(cfg, err) <- loadConfig ctx profile ;;
   match err with
   | Some err =>
       Ret ({| AccessKeyID := ""; SecretAccessKey := "";
               SessionToken := "" |}, Some err)
   | None =>
       client <- trigger (NewFromConfig cfg) ;;
       '(out, err) <-
          trigger (StsGetSessionToken client ctx
                     {| DurationSeconds := Int32 durationSeconds |}) ;;
       match err with
       | Some err =>
           Ret ({| AccessKeyID := ""; SecretAccessKey := "";
                   SessionToken := "" |}, Some err)
       | None =>
           match OutputCredentials out with
           | None =>
               Ret ({| AccessKeyID := ""; SecretAccessKey := "";
                       SessionToken := "" |},
                    Some (errorString
                            "STS GetSessionToken returned empty credentials"))
           | Some c =>
               Ret ({| AccessKeyID := ToString (StsAccessKeyId c);
                       SecretAccessKey := ToString (StsSecretAccessKey c);
                       SessionToken := ToString (StsSessionToken c) |}, None)
           end
       end
   end)%sdk.

(** The options [loadConfig] asks for, read off an execution. *)
Definition loadOptions (t : trace) : list (list LoadOption) :=
  flat_map (fun e => match e with
                     | EvLoadDefaultConfig _ optFns _ => [optFns]
                     | _ => []
                     end) t.

Definition isLoad (e : event) : bool :=
  match e with EvLoadDefaultConfig _ _ _ => true | _ => false end.

Definition isNewFromConfig (e : event) : bool :=
  match e with EvNewFromConfig _ _ => true | _ => false end.

(** Example executions: a profile whose configuration cannot be loaded,
    and an STS answer that holds no credentials. *)
Definition loadFailsTrace : trace :=
  [ EvLoadDefaultConfig Background [WithSharedConfigProfile "dev-profile"]
      (zeroConfig, Some (errorString "profile not found")) ].

Definition emptyCredentialsTrace : trace :=
  [ EvLoadDefaultConfig Background [] (ConfigOf 1, None);
    EvNewFromConfig (ConfigOf 1) (ClientOf 1);
    EvStsGetSessionToken (ClientOf 1) Background
      {| DurationSeconds := Some 43200%Z |}
      ({| OutputCredentials := None |}, None) ].

Definition partialCredentialsTrace : trace :=
  [ EvLoadDefaultConfig Background [] (ConfigOf 1, None);
    EvNewFromConfig (ConfigOf 1) (ClientOf 1);
    EvStsGetSessionToken (ClientOf 1) Background
      {| DurationSeconds := Some 43200%Z |}
      ({| OutputCredentials :=
            Some {| StsAccessKeyId := Some "ASIA_TEMP";
                    StsSecretAccessKey := Some "temp-secret";
                    StsSessionToken := None |} |}, None) ].

End SDK.

(** An execution of the workflow in which the temporary credentials come
    back without a session token. *)
Definition tokenlessCreds : Credentials :=
  {| AccessKeyID := "ASIA_TEMP"; SecretAccessKey := "temp-secret";
     SessionToken := "" |}.

Definition tokenlessTrace : trace :=
  [ EvGetCallerIdentity Background "dev-profile" (exampleIdentity, None);
    EvWrite (Handle 1)
      ("Authenticated as: arn:aws:iam::123456789012:user/test" ++ newline)
      (54%Z, None);
    EvRetrieveCredentials Background "dev-profile" (longLivedCreds, None);
    EvWrite (Handle 1)
      ("No session token found, requesting temporary credentials..."
         ++ newline)
      (60%Z, None);
    EvGetSessionToken Background "dev-profile" 43200 (tokenlessCreds, None);
    EvBuildConsoleURL Background tokenlessCreds 43200
      ("", Some (errorString "federation endpoint returned HTTP 400: ")) ].

(** Executions of the SDK service: an identity answer without ARN, and a
    provider that hands back session credentials. *)
Definition identityWithoutArnTrace : SDK.trace :=
  [ SDK.EvLoadDefaultConfig Background [] (SDK.ConfigOf 1, None);
    SDK.EvNewFromConfig (SDK.ConfigOf 1) (SDK.ClientOf 1);
    SDK.EvStsGetCallerIdentity (SDK.ClientOf 1) Background
      ({| SDK.OutputArn := None |}, None) ].

Definition providerTrace : SDK.trace :=
  [ SDK.EvLoadDefaultConfig Background
      [SDK.WithSharedConfigProfile "dev-profile"] (SDK.ConfigOf 1, None);
    SDK.EvRetrieve (SDK.ConfigOf 1) Background
      ({| SDK.AwsAccessKeyID := "AKIA_TEST";
          SDK.AwsSecretAccessKey := "secret";
          SDK.AwsSessionToken := "token" |}, None) ].

(** * Theorems *)

(** Steps through one call of an execution under study. *)
Ltac run_inv H :=
  repeat (simpl in H;
          match type of H with
          | exists _, _ =>
              let x := fresh "x" in
              let t' := fresh "t" in
              destruct H as (x & t' & -> & H)
          | _ = [] /\ _ = _ => destruct H as [-> ->]
          | runs (match ?e with _ => _ end) _ _ => destruct e eqn:?
          | runs (bind (match ?e with _ => _ end) _) _ _ => destruct e eqn:?
          end).

(** Builds an execution with a given trace, one call at a time. *)
Ltac run_build :=
  repeat (simpl;
          match goal with
          | |- exists _, _ => eexists; eexists; split; [reflexivity|]
          | |- _ = [] /\ _ = _ => split; reflexivity
          end).

(** Whatever the outside answers, a program performs finitely many calls
    and returns: every handler and starting state give an execution. *)
Lemma interp_runs {S R : Type} (h : handler S) (p : prog R) :
  forall s : S,
    runs p (snd (interp h p s)) (fst (fst (interp h p s))).
Proof.
  induction p as [r|X c k IH]; simpl; intros s.
  - split; reflexivity.
  - destruct (h X c s) as [x s'] eqn:Hh.
    specialize (IH x s').
    destruct (interp h (k x) s') as [[r s''] t]. simpl in *.
    exists x, t. split; [reflexivity | exact IH].
Qed.

Lemma loginFails_runs :
  runs (runWorkflow Background "dev-profile" (defaultRunDeps "linux"))
       loginFailsTrace loginFailsResult.
Proof. unfold loginFailsTrace, loginFailsResult. run_build. Qed.

Lemma fallback_runs :
  runs (runWorkflow Background "dev-profile" (defaultRunDeps "linux"))
       fallbackTrace None.
Proof. unfold fallbackTrace. run_build. Qed.

Lemma happy_runs :
  runs (runWorkflow Background "dev-profile" (defaultRunDeps "linux"))
       happyTrace None.
Proof. unfold happyTrace. run_build. Qed.

Lemma retrieveFails_runs :
  runs (runWorkflow Background "dev-profile" (defaultRunDeps "linux"))
       retrieveFailsTrace
       (Some (wrapError "failed to retrieve credentials: retrieve failed"
                (errorString "retrieve failed"))).
Proof. unfold retrieveFailsTrace. run_build. Qed.

(** ** The identity phase (C1) *)

(** C1, counterexample.  The specification promises a second identity
    check whenever the first one fails.  In the execution
    [loginFailsTrace] the first check fails, the login is invoked once and
    fails, and the workflow returns at line 113: GetCallerIdentity was
    called once, not twice.  So [retryAsSpecified] does not hold. *)
Lemma C1_second_check_skipped_when_login_fails :
  runs (runWorkflow Background "dev-profile" (defaultRunDeps "linux"))
       loginFailsTrace loginFailsResult
  /\ firstCheckFailed loginFailsTrace = true
  /\ countLogin loginFailsTrace = 1
  /\ countGetCallerIdentity loginFailsTrace = 1
  /\ ~ retryAsSpecified.
Proof.
  assert (Hrun : runs (runWorkflow Background "dev-profile"
                         (defaultRunDeps "linux"))
                      loginFailsTrace loginFailsResult)
    by (unfold loginFailsTrace, loginFailsResult; run_build).
  split; [exact Hrun|].
  split; [reflexivity|]. split; [reflexivity|]. split; [reflexivity|].
  intros Hspec.
  destruct (Hspec _ _ _ _ _ Hrun) as [Hfail _].
  destruct (Hfail eq_refl) as (_ & Hcount & _).
  discriminate Hcount.
Qed.

(** C1, amended.  In every execution of the workflow: if the first
    identity check fails, the login is invoked exactly once, and, provided
    that login succeeds, GetCallerIdentity is then called exactly one more
    time (the identity checks and the login happen in the order check,
    login, check) and a failure of that second check makes the workflow
    return an error.  GetCallerIdentity is never called more than twice,
    the login never more than once, and the login is not invoked when the
    first check succeeds. *)
Theorem C1_identity_retry
    (ctx : Context) (profile : string) (deps : runDeps)
    (t : trace) (r : option error)
    (Hrun : runs (runWorkflow ctx profile deps) t r) :
  (firstCheckFailed t = true ->
     countLogin t = 1
     /\ (loginSucceeded t = true ->
           countGetCallerIdentity t = 2
           /\ (exists o1 o2,
                 authCalls t = [ EvGetCallerIdentity ctx profile o1;
                                 EvLogin profile None;
                                 EvGetCallerIdentity ctx profile o2 ])
           /\ (secondCheckFailed t = true -> r <> None)))
  /\ countGetCallerIdentity t <= 2
  /\ countLogin t <= 1
  /\ (firstCheckFailed t = false -> countLogin t = 0).
Proof.
  unfold runWorkflow, Fprintln, Fprintf, trigger in Hrun.
  run_inv Hrun;
    cbv [firstCheckFailed loginSucceeded secondCheckFailed authCalls
         countGetCallerIdentity countLogin filter isGetCallerIdentity
         isLogin orb existsb failed snd length];
    repeat split; intros; try lia; try discriminate; try reflexivity;
    eauto.
Qed.

Lemma C1_identity_retry_witness :
  runs (runWorkflow Background "dev-profile" (defaultRunDeps "linux"))
       fallbackTrace None
  /\ firstCheckFailed fallbackTrace = true
  /\ countLogin fallbackTrace = 1
  /\ countGetCallerIdentity fallbackTrace = 2.
Proof.
  assert (Hrun : runs (runWorkflow Background "dev-profile"
                         (defaultRunDeps "linux")) fallbackTrace None)
    by (unfold fallbackTrace; run_build).
  destruct (C1_identity_retry Background "dev-profile"
              (defaultRunDeps "linux") fallbackTrace None Hrun)
    as [Hfail _].
  destruct (Hfail eq_refl) as [Hlogin Hsecond].
  destruct (Hsecond eq_refl) as [Hcount _].
  split; [exact Hrun|].
  split; [reflexivity|].
  split; [exact Hlogin | exact Hcount].
Defined.

(** ** Credential resolution (C2) *)

(** Decomposes a membership in an explicit trace into its cases. *)
Ltac in_cases H :=
  simpl in H;
  repeat (let H' := fresh "H" in destruct H as [H'|H];
          [try discriminate H'; try (injection H' as; subst)|]);
  try contradiction.



(** ** Early return (C3) *)

Lemma split_nil_inv (pre : trace) (e : event) (post : trace) :
  pre ++ e :: post = [] -> False.
Proof. destruct pre; discriminate. Qed.

Lemma split_cons_inv (pre : trace) (e : event) (post : trace)
    (a : event) (l : trace) :
  pre ++ e :: post = a :: l ->
  (pre = [] /\ e = a /\ post = l)
  \/ (exists pre', pre = a :: pre' /\ pre' ++ e :: post = l).
Proof.
  destruct pre as [|b pre']; simpl; intros H; injection H as Ha Hl.
  - left. subst. repeat split.
  - right. exists pre'. subst. split; reflexivity.
Qed.

(** Enumerates the positions of an event inside an explicit trace. *)
Ltac split_cases H :=
  repeat (first
    [ apply split_nil_inv in H; contradiction
    | apply split_cons_inv in H;
      let pre' := fresh "pre" in
      destruct H as [(-> & -> & ->) | (pre' & -> & H)] ]).

(** C3.  In every execution of the workflow, when the login, the identity
    re-check after the login, the retrieval of credentials, the
    temporary-credentials request or the building of the console URL
    fails, that failing call is the last event of the execution (no call
    of any collaborator and no write follows it) and the workflow returns
    a non-nil error. *)
Theorem C3_early_return
    (ctx : Context) (profile : string) (deps : runDeps)
    (t : trace) (r : option error)
    (pre : trace) (e : event) (post : trace)
    (Hrun : runs (runWorkflow ctx profile deps) t r)
    (Hsplit : t = pre ++ e :: post)
    (Hfail : failingStep pre e = true) :
  post = [] /\ r <> None.
Proof.
  unfold runWorkflow, Fprintln, Fprintf, trigger in Hrun.
  symmetry in Hsplit.
  run_inv Hrun; split_cases Hsplit; simpl in Hfail;
    try discriminate Hfail; split; try reflexivity; discriminate.
Qed.

Lemma C3_early_return_witness :
  failingStep
    [ EvGetCallerIdentity Background "dev-profile" (exampleIdentity, None);
      EvWrite (Handle 1)
        ("Authenticated as: arn:aws:iam::123456789012:user/test" ++ newline)
        (54%Z, None) ]
    (EvRetrieveCredentials Background "dev-profile"
       (zeroCredentials, Some (errorString "retrieve failed"))) = true
  /\ Some (wrapError "failed to retrieve credentials: retrieve failed"
             (errorString "retrieve failed")) <> None.
Proof.
  split; [reflexivity|].
  apply (C3_early_return Background "dev-profile" (defaultRunDeps "linux")
           retrieveFailsTrace _
           [ EvGetCallerIdentity Background "dev-profile"
               (exampleIdentity, None);
             EvWrite (Handle 1)
               ("Authenticated as: arn:aws:iam::123456789012:user/test"
                  ++ newline)
               (54%Z, None) ]
           (EvRetrieveCredentials Background "dev-profile"
              (zeroCredentials, Some (errorString "retrieve failed")))
           []).
  - unfold retrieveFailsTrace. run_build.
  - reflexivity.
  - reflexivity.
Defined.

(** ** Opening the console (C5) *)

(** Finds an event in an explicit trace. *)
Ltac in_find := simpl; repeat (first [left; reflexivity | right]).

(** C5.  An execution of the workflow that returns nil has handed a URL
    to the browser opener.  In every execution in which the browser
    opener is invoked, say with [url] and answer [out]: BuildConsoleURL
    returned exactly [url] with a nil error, it is the only URL built and
    the only URL opened, and the result of the workflow is [out]. *)
Theorem C5_opens_built_url
    (ctx : Context) (profile : string) (deps : runDeps)
    (t : trace) (r : option error)
    (Hrun : runs (runWorkflow ctx profile deps) t r) :
  (r = None -> exists url, In (EvOpen url None) t)
  /\ (forall url out,
        In (EvOpen url out) t ->
        r = out
        /\ (exists creds,
              In (EvBuildConsoleURL ctx creds (deps_sessionDuration deps)
                    (url, None)) t)
        /\ builtURLs t = [url]
        /\ openedURLs t = [url]).
Proof.
  unfold runWorkflow, Fprintln, Fprintf, trigger in Hrun.
  run_inv Hrun;
    (split;
     [ intros Hr; try discriminate Hr; subst; eexists; in_find
     | intros url out Hin; in_cases Hin;
       (split; [reflexivity|]);
       (split; [eexists; in_find|]);
       split; reflexivity ]).
Qed.

Lemma C5_opens_built_url_witness :
  In (EvOpen "https://example.com/console-login" None) happyTrace
  /\ builtURLs happyTrace = ["https://example.com/console-login"]
  /\ openedURLs happyTrace = ["https://example.com/console-login"].
Proof.
  assert (Hin : In (EvOpen "https://example.com/console-login" None)
                   happyTrace) by in_find.
  assert (Hrun : runs (runWorkflow Background "dev-profile"
                         (defaultRunDeps "linux")) happyTrace None)
    by (unfold happyTrace; run_build).
  destruct (C5_opens_built_url Background "dev-profile"
              (defaultRunDeps "linux") happyTrace None Hrun) as [_ Hopen].
  destruct (Hopen _ _ Hin) as (_ & _ & Hbuilt & Hopened).
  split; [exact Hin|].
  split; [exact Hbuilt | exact Hopened].
Defined.

(** ** The launchers (C6, C8, C10) *)

(** A program that is a single call has exactly the executions made of
    that one call, and returns its answer. *)
Lemma runs_trigger {X : Type} (c : call X) (t : trace) (x : X) :
  runs (trigger c) t x <-> t = [observe c x].
Proof.
  unfold trigger; simpl. split.
  - intros (x' & t' & -> & -> & ->). reflexivity.
  - intros ->. exists x, []. repeat split.
Qed.

(** C6.  For every target URL and whatever the other fields of the
    dependencies are, [openBrowser] is a single [Executor.Start]
    invocation chosen by [goos] alone: [open url] on darwin,
    [xdg-open url] on linux, and [rundll32 url.dll,FileProtocolHandler url]
    on windows; the target URL is the last argument, and the answer of
    that invocation is the result. *)
Theorem C6_openBrowser_command
    (targetURL : string) (i o e : handle) (d : Z) :
  openBrowser targetURL
    {| goos := "darwin"; stdin := i; stdout := o; stderr := e;
       deps_sessionDuration := d |}
  = trigger (ExecutorStart "open" [targetURL])
  /\ openBrowser targetURL
       {| goos := "linux"; stdin := i; stdout := o; stderr := e;
          deps_sessionDuration := d |}
     = trigger (ExecutorStart "xdg-open" [targetURL])
  /\ openBrowser targetURL
       {| goos := "windows"; stdin := i; stdout := o; stderr := e;
          deps_sessionDuration := d |}
     = trigger (ExecutorStart "rundll32"
                  ["url.dll,FileProtocolHandler"; targetURL]).
Proof. repeat split. Qed.

(** C8.  When [goos] is none of darwin, linux and windows, [openBrowser]
    makes no call at all: it returns at once the error
    "unsupported platform: <goos>", so every execution has the empty
    trace and that non-nil result. *)
Theorem C8_openBrowser_unsupported
    (targetURL : string) (deps : runDeps)
    (Hdarwin : goos deps <> "darwin")
    (Hlinux : goos deps <> "linux")
    (Hwindows : goos deps <> "windows") :
  openBrowser targetURL deps
  = Ret (Some (errorString ("unsupported platform: " ++ goos deps)))
  /\ (forall t r,
        runs (openBrowser targetURL deps) t r ->
        t = []
        /\ r = Some (errorString ("unsupported platform: " ++ goos deps))).
Proof.
  assert (Heq : openBrowser targetURL deps
                = Ret (Some (errorString
                               ("unsupported platform: " ++ goos deps)))).
  { unfold openBrowser.
    apply String.eqb_neq in Hdarwin, Hlinux, Hwindows.
    rewrite Hdarwin, Hlinux, Hwindows. reflexivity. }
  split; [exact Heq|].
  intros t r Hrun. rewrite Heq in Hrun. exact Hrun.
Qed.

Lemma C8_openBrowser_unsupported_witness :
  openBrowser "https://example.com" (defaultRunDeps "plan9")
  = Ret (Some (errorString "unsupported platform: plan9")).
Proof.
  apply (C8_openBrowser_unsupported "https://example.com"
           (defaultRunDeps "plan9")); simpl; discriminate.
Defined.

(** C10.  For every profile, [ssoLogin] is one [Executor.Run] of the
    command [aws], on the standard streams of the dependencies, whose
    arguments begin with [sso login]; they are exactly
    [sso login --profile <profile>] when the profile is not empty and
    exactly [sso login] when it is empty, so that an empty profile gives
    no [--profile] argument. *)
Theorem C10_ssoLogin_command (profile : string) (deps : runDeps) :
  exists args,
    ssoLogin profile deps
    = trigger (ExecutorRun "aws" args (stdin deps) (stdout deps)
                 (stderr deps))
    /\ firstn 2 args = ["sso"; "login"]
    /\ (profile <> "" <-> args = ["sso"; "login"; "--profile"; profile])
    /\ (profile = "" <-> args = ["sso"; "login"])
    /\ (profile = "" -> ~ In "--profile" args).
Proof.
  unfold ssoLogin.
  destruct (profile =? "") eqn:Hp; simpl.
  - apply String.eqb_eq in Hp. subst profile.
    eexists; split; [reflexivity|].
    split; [reflexivity|].
    split; [split; [intros H; contradiction H; reflexivity
                   | intros H; discriminate H]|].
    split; [split; reflexivity|].
    intros _ [H|[H|[]]]; discriminate H.
  - apply String.eqb_neq in Hp.
    eexists; split; [reflexivity|].
    split; [reflexivity|].
    split; [split; [reflexivity | intros _; exact Hp]|].
    split; [split; [intros H; contradiction | intros H; discriminate H]|].
    intros H; contradiction.
Qed.

(** ** Determinism (C7) *)





Lemma runs_bind_inv {A B : Type} (p : prog A) (f : A -> prog B) :
  forall (t : trace) (b : B),
    runs (bind p f) t b ->
    exists t1 a t2, t = t1 ++ t2 /\ runs p t1 a /\ runs (f a) t2 b.
Proof.
  induction p as [a|X c k IH]; simpl; intros t b H.
  - exists [], a, t. repeat split. exact H.
  - destruct H as (x & t' & -> & H).
    destruct (IH x t' b H) as (t1 & a & t2 & -> & Hp & Hf).
    exists (observe c x :: t1), a, t2.
    split; [reflexivity|]. split; [|exact Hf].
    exists x, t1. split; [reflexivity | exact Hp].
Qed.

(** The second of two consecutive runs is an execution of the workflow
    like any other: the first run leaves nothing behind in the program. *)
Lemma runTwice_inv (ctx : Context) (profile : string) (deps : runDeps)
    (t : trace) (ra rb : option error) :
  runs (runTwice ctx profile deps) t (ra, rb) ->
  exists t1 t2,
    t = t1 ++ t2
    /\ runs (runWorkflow ctx profile deps) t1 ra
    /\ runs (runWorkflow ctx profile deps) t2 rb.
Proof.
  unfold runTwice. intros H.
  apply runs_bind_inv in H. destruct H as (t1 & a & t' & -> & H1 & H).
  apply runs_bind_inv in H. destruct H as (t2 & b & t3 & -> & H2 & H).
  simpl in H. destruct H as [-> H]. injection H as -> ->.
  exists t1, t2. rewrite app_nil_r. repeat split; assumption.
Qed.



(** ** The federation client (C4, C9) *)

Lemma federationSuccess_runs :
  runs (@BuildConsoleURL exampleLib testClient Background sessionCreds 3600)
       federationSuccessTrace (federationSuccessURL, None).
Proof. unfold federationSuccessTrace. run_build. Qed.

Lemma federationForbidden_runs :
  runs (@BuildConsoleURL exampleLib testClient Background sessionCreds 3600)
       federationForbiddenTrace
       ("", Some (errorString
                    "federation endpoint returned HTTP 403: forbidden")).
Proof. unfold federationForbiddenTrace. run_build. Qed.

(** Turns the boolean tests met along an execution into propositions. *)
Ltac clean_tests :=
  repeat match goal with
         | H : negb _ = true |- _ => apply negb_true_iff in H
         | H : negb _ = false |- _ => apply negb_false_iff in H
         | H : (_ =? _)%Z = false |- _ => apply Z.eqb_neq in H
         | H : (_ =? _)%Z = true |- _ => apply Z.eqb_eq in H
         | H : (_ =? _)%string = true |- _ => apply String.eqb_eq in H
         | H : (_ =? _)%string = false |- _ => apply String.eqb_neq in H
         end.

Section Federation.

Context {L : GoLib}.


(** C9.  In every execution of [BuildConsoleURL]: a non-nil error always
    comes with the empty string; when the endpoint answered with a status
    other than 200 the result is the empty string and a non-nil error;
    when it answered and its body was read, and either the body does not
    decode or the decoded [SigninToken] is empty, the result is again the
    empty string and a non-nil error; and a nil error (a URL) is returned
    only if the endpoint answered with status 200 and a body that decodes
    to a non-empty [SigninToken]. *)
Theorem C9_console_url_errors
    (f : FederationClient) (ctx : Context) (creds : Credentials)
    (durationSeconds : Z) (t : trace) (r : string * option error)
    (Hrun : runs (BuildConsoleURL f ctx creds durationSeconds) t r) :
  (snd r <> None -> fst r = "")
  /\ (forall req resp,
        In (EvDo req (resp, None)) t ->
        StatusCode resp <> StatusOK ->
        fst r = "" /\ snd r <> None)
  /\ (forall req resp body,
        In (EvDo req (resp, None)) t ->
        In (EvReadAll (Body resp) (body, None)) t ->
        snd (json_Unmarshal body {| SigninToken := "" |}) <> None
        \/ SigninToken (fst (json_Unmarshal body {| SigninToken := "" |}))
           = "" ->
        fst r = "" /\ snd r <> None)
  /\ (snd r = None ->
      exists req resp body,
        In (EvDo req (resp, None)) t
        /\ In (EvReadAll (Body resp) (body, None)) t
        /\ StatusCode resp = StatusOK
        /\ snd (json_Unmarshal body {| SigninToken := "" |}) = None
        /\ SigninToken (fst (json_Unmarshal body {| SigninToken := "" |}))
           <> "").
Proof.
  unfold BuildConsoleURL, defer, trigger in Hrun.
  run_inv Hrun; clean_tests.
  all: split; [simpl; intros; congruence || reflexivity|].
  all: split;
    [intros req resp Hdo Hst; in_cases Hdo; simpl; try contradiction;
     (split; [reflexivity | discriminate])|].
  all: split;
    [intros req resp body Hdo Hread Hbad; in_cases Hdo; in_cases Hread;
     try match goal with
         | H : json_Unmarshal _ _ = _ |- _ =>
             rewrite H in Hbad; simpl in Hbad
         end;
     try (destruct Hbad; congruence);
     simpl; (split; [reflexivity | discriminate])|].
  all: simpl; intros Hnil; try discriminate Hnil.
  do 3 eexists.
  split; [in_find|]. split; [in_find|].
  match goal with
  | H : json_Unmarshal _ _ = _ |- _ => rewrite H
  end.
  simpl. repeat split; assumption.
Qed.

End Federation.


Lemma C9_console_url_errors_witness :
  In (EvDo testRequest ({| StatusCode := 403; Body := Handle 7 |}, None))
     federationForbiddenTrace
  /\ fst ("", Some (errorString
                     "federation endpoint returned HTTP 403: forbidden"))
     = "".
Proof.
  assert (Hin : In (EvDo testRequest
                      ({| StatusCode := 403; Body := Handle 7 |}, None))
                   federationForbiddenTrace)
    by (unfold federationForbiddenTrace; in_find).
  split; [exact Hin|].
  destruct (@C9_console_url_errors exampleLib testClient Background
              sessionCreds 3600 federationForbiddenTrace
              ("", Some (errorString
                           "federation endpoint returned HTTP 403: forbidden")))
    as (_ & Hstatus & _).
  - unfold federationForbiddenTrace. run_build.
  - destruct (Hstatus _ _ Hin) as [Hempty _]; [discriminate | exact Hempty].
Defined.

(** * Further properties *)

(** ** The workflow *)





(** X3.  Every write of an execution of the workflow is one of four
    status texts: the fallback notice, on the standard error; and, on the
    standard output, the line "Authenticated as: " followed by the ARN
    that the last identity check returned, the notice about temporary
    credentials, and the notice about the browser.  Neither credentials
    nor the console URL are ever written. *)
Theorem X3_workflow_writes_only_status
    (ctx : Context) (profile : string) (deps : runDeps)
    (t : trace) (r : option error)
    (w : handle) (p : string) (out : Z * option error)
    (Hrun : runs (runWorkflow ctx profile deps) t r)
    (Hwrite : In (EvWrite w p out) t) :
  (w = stderr deps
   /\ p = ("Credentials are not valid, attempting SSO login..."
            ++ newline)%string)
  \/ (w = stdout deps
      /\ exists identity,
           lastIdentity t = Some identity
           /\ p = ("Authenticated as: " ++ Arn identity
                     ++ newline)%string)
  \/ (w = stdout deps
      /\ p = ("No session token found, requesting temporary credentials..."
                ++ newline)%string)
  \/ (w = stdout deps
      /\ p = ("Opening AWS Console in your browser..." ++ newline)%string).
Proof.
  unfold runWorkflow, Fprintln, Fprintf, trigger in Hrun.
  run_inv Hrun; in_cases Hwrite;
    first
      [ left; split; reflexivity
      | right; left; split; [reflexivity|];
        eexists; split; reflexivity
      | right; right; left; split; reflexivity
      | right; right; right; split; reflexivity ].
Qed.

Lemma X3_workflow_writes_only_status_witness :
  In (EvWrite (Handle 1)
        ("Authenticated as: arn:aws:iam::123456789012:user/test" ++ newline)
        (54%Z, None)) fallbackTrace
  /\ exists identity,
       lastIdentity fallbackTrace = Some identity
       /\ ("Authenticated as: arn:aws:iam::123456789012:user/test"
             ++ newline)%string
          = ("Authenticated as: " ++ Arn identity ++ newline)%string.
Proof.
  assert (Hin : In (EvWrite (Handle 1)
                      ("Authenticated as: arn:aws:iam::123456789012:user/test"
                         ++ newline)
                      (54%Z, None)) fallbackTrace)
    by (unfold fallbackTrace; in_find).
  split; [exact Hin|].
  destruct (X3_workflow_writes_only_status Background "dev-profile"
              (defaultRunDeps "linux") fallbackTrace None _ _ _
              fallback_runs Hin)
    as [[_ H]|[[_ H]|[[_ H]|[_ H]]]];
    try (simpl in H; discriminate H).
  exact H.
Defined.

(** X4.  When the workflow returns an error, that error comes from the
    last event of the execution, which failed.  If the last event is the
    opening of the browser, the error is returned as it is; otherwise the
    returned error wraps the cause ([errors.Unwrap] gives it back) and
    its text is the text of that step followed by the text of the
    cause. *)
Theorem X4_workflow_error_cause
    (ctx : Context) (profile : string) (deps : runDeps)
    (t : trace) (err : error)
    (Hrun : runs (runWorkflow ctx profile deps) t (Some err)) :
  exists last cause,
    lastEvent t = Some last
    /\ eventError last = Some cause
    /\ (isOpen last = true -> err = cause)
    /\ (isOpen last = false ->
        Unwrap err = Some cause
        /\ Error err = (stepPrefix last ++ Error cause)%string).
Proof.
  remember (Some err) as r eqn:Hr.
  unfold runWorkflow, Fprintln, Fprintf, trigger in Hrun.
  run_inv Hrun; subst;
    try match goal with
        | H : Some _ = Some _ |- _ => injection H as H; subst
        end;
    do 2 eexists;
    (split; [reflexivity|]);
    (split; [reflexivity|]);
    split; intros Hk; try discriminate Hk; try reflexivity;
    split; reflexivity.
Qed.

Lemma X4_workflow_error_cause_witness :
  exists last cause,
    lastEvent loginFailsTrace = Some last
    /\ eventError last = Some cause
    /\ (isOpen last = true ->
        wrapError "SSO login failed: sso failed" (errorString "sso failed")
        = cause)
    /\ (isOpen last = false ->
        Unwrap (wrapError "SSO login failed: sso failed"
                  (errorString "sso failed")) = Some cause
        /\ Error (wrapError "SSO login failed: sso failed"
                    (errorString "sso failed"))
           = (stepPrefix last ++ Error cause)%string).
Proof.
  exact (X4_workflow_error_cause Background "dev-profile"
           (defaultRunDeps "linux") loginFailsTrace _ loginFails_runs).
Defined.

(** X5.  The workflow ignores the outcome of its writes: an execution
    stays an execution, with the same calls and the same result, when the
    writes are answered differently (for instance with an error). *)
Theorem X5_workflow_ignores_write_errors
    (ctx : Context) (profile : string) (deps : runDeps)
    (t : trace) (r : option error)
    (answer : handle -> string -> Z * option error)
    (Hrun : runs (runWorkflow ctx profile deps) t r) :
  runs (runWorkflow ctx profile deps) (withWriteAnswers answer t) r.
Proof.
  unfold runWorkflow, Fprintln, Fprintf, trigger in Hrun |- *.
  run_inv Hrun;
    repeat (simpl;
            match goal with
            | |- exists _, _ => eexists; eexists; split; [reflexivity|]
            | |- _ = [] /\ _ = _ => split; reflexivity
            | H : ?b = _ |- context [if ?b then _ else _] => rewrite H
            end).
Qed.

Lemma X5_workflow_ignores_write_errors_witness :
  runs (runWorkflow Background "dev-profile" (defaultRunDeps "linux"))
       (withWriteAnswers
          (fun _ _ => (0%Z, Some (errorString "broken pipe")))
          happyTrace)
       None.
Proof.
  exact (X5_workflow_ignores_write_errors Background "dev-profile"
           (defaultRunDeps "linux") happyTrace None
           (fun _ _ => (0%Z, Some (errorString "broken pipe"))) happy_runs).
Defined.

(** ** The root command *)

Lemma rootLoginFails_runs :
  runs (NewRootCmd "linux" envProfile "flag-profile") rootLoginFailsTrace
       (Some (wrapError "SSO login failed: exit status 255"
                (errorString "exit status 255"))).
Proof. unfold rootLoginFailsTrace. run_build. Qed.



(** [run_inv] for linked programs. *)
Ltac link_inv H :=
  repeat (simpl in H;
          match type of H with
          | exists _, _ =>
              let x := fresh "x" in
              let t' := fresh "t" in
              destruct H as (x & t' & -> & H)
          | _ = [] /\ _ = _ => destruct H as [-> ->]
          | runs (match ?e with _ => _ end) _ _ => destruct e eqn:?
          | runs (bind (match ?e with _ => _ end) _) _ _ => destruct e eqn:?
          | runs (link _ (match ?e with _ => _ end)) _ _ => destruct e eqn:?
          end).

(** Unfolds the root command down to its calls. *)
Ltac root_unfold H :=
  unfold NewRootCmd, RunE, runWorkflow, Fprintln, Fprintf, defaultCollaborators,
    defaultLogin, defaultOpen, ssoLogin, openBrowser, trigger in H.

(** X6.  The profile of the root command is the [--profile] flag when it
    is not empty and the value of AWS_PROFILE otherwise: in every
    execution, each call that takes a profile gets that one, whatever
    AWS_PROFILE holds when the flag is set. *)
Theorem X6_root_profile_resolution
    (GOOS : string) (Getenv : string -> string) (profile : string)
    (t : trace) (r : option error) (e : event) (p : string)
    (Hrun : runs (NewRootCmd GOOS Getenv profile) t r)
    (Hin : In e t)
    (Hp : In p (profileOf e)) :
  (profile <> "" -> p = profile)
  /\ (profile = "" -> p = Getenv "AWS_PROFILE").
Proof.
  root_unfold Hrun.
  destruct (profile =? "") eqn:Hflag;
    [apply String.eqb_eq in Hflag | apply String.eqb_neq in Hflag];
    link_inv Hrun;
    simpl in Hin; repeat (destruct Hin as [<-|Hin]); try contradiction;
    simpl in Hp; repeat (destruct Hp as [<-|Hp]); try contradiction;
    split; intros; congruence.
Qed.

Lemma X6_root_profile_resolution_witness :
  In (EvGetCallerIdentity Background "flag-profile"
        (zeroIdentity, Some (errorString "expired token")))
     rootLoginFailsTrace
  /\ ("flag-profile" <> "" -> "flag-profile" = "flag-profile").
Proof.
  assert (Hin : In (EvGetCallerIdentity Background "flag-profile"
                      (zeroIdentity, Some (errorString "expired token")))
                   rootLoginFailsTrace)
    by (unfold rootLoginFailsTrace; in_find).
  split; [exact Hin|].
  apply (X6_root_profile_resolution "linux" envProfile "flag-profile"
           rootLoginFailsTrace _ _ "flag-profile" rootLoginFails_runs Hin).
  simpl. left. reflexivity.
Defined.

(** Decides the emptiness tests left in the arguments of a command. *)
Ltac empty_cases :=
  repeat match goal with
         | |- context [(?s =? "")%string] =>
             let E := fresh "E" in
             destruct (s =? "")%string eqn:E;
             [apply String.eqb_eq in E | apply String.eqb_neq in E]
         end.

(** X7.  Whenever the root command runs an external command through
    [Executor.Run], the first identity check had failed, it is the only
    such command of the execution, and it is [aws sso login] on the
    standard streams of the process, followed by [--profile] and the
    resolved profile exactly when that profile is not empty: the flag if
    it is set, and otherwise AWS_PROFILE.  If the command fails, the root
    command returns "SSO login failed: " and the cause, which it
    wraps. *)
Theorem X7_root_login_command
    (GOOS : string) (Getenv : string -> string) (profile : string)
    (t : trace) (r : option error)
    (name : string) (args : list string) (i o e : handle)
    (out : option error)
    (Hrun : runs (NewRootCmd GOOS Getenv profile) t r)
    (Hin : In (EvRun name args i o e out) t) :
  name = "aws" /\ i = Handle 0 /\ o = Handle 1 /\ e = Handle 2
  /\ firstCheckFailed t = true
  /\ length (filter isRun t) = 1
  /\ (profile <> "" -> args = ["sso"; "login"; "--profile"; profile])
  /\ (profile = "" -> Getenv "AWS_PROFILE" <> "" ->
      args = ["sso"; "login"; "--profile"; Getenv "AWS_PROFILE"])
  /\ (profile = "" -> Getenv "AWS_PROFILE" = "" -> args = ["sso"; "login"])
  /\ (forall cause, out = Some cause ->
      r = Some (wrapError ("SSO login failed: " ++ Error cause) cause)).
Proof.
  root_unfold Hrun.
  destruct (profile =? "") eqn:Hflag;
    [apply String.eqb_eq in Hflag | apply String.eqb_neq in Hflag];
    link_inv Hrun; in_cases Hin;
    (split; [reflexivity|]); (split; [reflexivity|]);
    (split; [reflexivity|]); (split; [reflexivity|]);
    (split; [reflexivity|]); (split; [reflexivity|]);
    empty_cases; simpl;
    repeat split; intros; try congruence; try reflexivity;
    match goal with
    | H : Some _ = Some _ |- _ => injection H as ->; reflexivity
    end.
Qed.

Lemma X7_root_login_command_witness :
  In (EvRun "aws" ["sso"; "login"; "--profile"; "flag-profile"]
        (Handle 0) (Handle 1) (Handle 2)
        (Some (errorString "exit status 255")))
     rootLoginFailsTrace
  /\ length (filter isRun rootLoginFailsTrace) = 1.
Proof.
  assert (Hin : In (EvRun "aws" ["sso"; "login"; "--profile"; "flag-profile"]
                      (Handle 0) (Handle 1) (Handle 2)
                      (Some (errorString "exit status 255")))
                   rootLoginFailsTrace)
    by (unfold rootLoginFailsTrace; in_find).
  split; [exact Hin|].
  destruct (X7_root_login_command "linux" envProfile "flag-profile"
              rootLoginFailsTrace _ _ _ _ _ _ _ rootLoginFails_runs Hin)
    as (_ & _ & _ & _ & _ & Hone & _).
  exact Hone.
Defined.





(** ** The federation client *)

Lemma networkError_runs :
  runs (@BuildConsoleURL exampleLib networkErrorClient Background
          sessionCreds 3600)
       networkErrorTrace
       ("", Some (wrapError "failed to request signin token: network error"
                    (errorString "network error"))).
Proof. unfold networkErrorTrace. run_build. Qed.

Section FederationFurther.

Context {L : GoLib}.

(** X10.  [BuildConsoleURL] closes the body of every response it gets,
    once, and as the very last thing it does, whatever happens in
    between (a failed read, a status other than 200, a body that does not
    decode, an empty token, or success); and it closes nothing if the
    request got no response. *)
Theorem X10_federation_closes_body
    (f : FederationClient) (ctx : Context) (creds : Credentials)
    (durationSeconds : Z) (t : trace) (r : string * option error)
    (Hrun : runs (BuildConsoleURL f ctx creds durationSeconds) t r) :
  (forall req resp,
     In (EvDo req (resp, None)) t ->
     length (filter isClose t) = 1
     /\ exists out, lastEvent t = Some (EvClose (Body resp) out))
  /\ (forall body out,
        In (EvClose body out) t ->
        exists req resp, In (EvDo req (resp, None)) t /\ body = Body resp).
Proof.
  unfold BuildConsoleURL, defer, trigger in Hrun.
  run_inv Hrun;
    (split;
     [ intros req resp Hdo; in_cases Hdo;
       (split; [reflexivity|]); eexists; reflexivity
     | intros body out Hin; in_cases Hin;
       do 2 eexists; (split; [in_find | reflexivity]) ]).
Qed.

(** X11.  [BuildConsoleURL] sends at most one request.  It sends none,
    and makes no call at all, when the session cannot be marshalled or
    the request cannot be built.  The request it sends is the GET request
    built for the federation URL followed by
    [?Action=getSigninToken&SessionDuration=], the duration in decimal,
    [&Session=] and the query-escaped JSON of the session map, whose keys
    [sessionId], [sessionKey] and [sessionToken] hold the access key, the
    secret key and the session token. *)
Theorem X11_federation_request
    (f : FederationClient) (ctx : Context) (creds : Credentials)
    (durationSeconds : Z) (t : trace) (r : string * option error)
    (Hrun : runs (BuildConsoleURL f ctx creds durationSeconds) t r) :
  length (filter isDo t) <= 1
  /\ (snd (json_Marshal (sessionData creds)) <> None -> t = [])
  /\ (forall sessionJSON,
        json_Marshal (sessionData creds) = (sessionJSON, None) ->
        snd (http_NewRequestWithContext ctx "GET"
               (federationURL f ++ "?Action=getSigninToken&SessionDuration="
                  ++ Sprintd durationSeconds ++ "&Session="
                  ++ url_QueryEscape sessionJSON)%string) <> None ->
        t = [])
  /\ (forall req out,
        In (EvDo req out) t ->
        exists sessionJSON,
          json_Marshal (sessionData creds) = (sessionJSON, None)
          /\ http_NewRequestWithContext ctx "GET"
               (federationURL f ++ "?Action=getSigninToken&SessionDuration="
                  ++ Sprintd durationSeconds ++ "&Session="
                  ++ url_QueryEscape sessionJSON)%string
             = (req, None)).
Proof.
  unfold BuildConsoleURL, defer, trigger in Hrun.
  unfold sessionData, MethodGet in *.
  run_inv Hrun;
    (split; [simpl; lia|]);
    (split; [intros Hm; try reflexivity; simpl in Hm; congruence|]);
    (split;
     [ intros sessionJSON Hm Hreq;
       try reflexivity; try discriminate Hm;
       injection Hm as; subst; simpl in Hreq;
       match goal with
       | H : http_NewRequestWithContext _ _ _ = _ |- _ => rewrite H in Hreq
       end; simpl in Hreq; congruence |]);
    intros req out Hin; in_cases Hin;
    eexists; (split; [reflexivity | eassumption]).
Qed.

(** X12.  [BuildConsoleURL] ignores the outcome of closing the body: the
    calls and the result of an execution stay the same when the closing
    reports an error. *)
Theorem X12_federation_ignores_close_error
    (f : FederationClient) (ctx : Context) (creds : Credentials)
    (durationSeconds : Z) (t : trace) (r : string * option error)
    (answer : option error)
    (Hrun : runs (BuildConsoleURL f ctx creds durationSeconds) t r) :
  runs (BuildConsoleURL f ctx creds durationSeconds)
       (withCloseAnswer answer t) r.
Proof.
  unfold BuildConsoleURL, defer, trigger in Hrun |- *.
  run_inv Hrun;
    repeat (simpl;
            match goal with
            | |- exists _, _ => eexists; eexists; split; [reflexivity|]
            | |- _ = [] /\ _ = _ => split; reflexivity
            | H : ?e = _ |- context [match ?e with _ => _ end] => rewrite H
            end).
Qed.

(** X13.  When the request gets no response, [BuildConsoleURL] does
    nothing more (it reads and closes nothing) and returns the empty
    string with "failed to request signin token: " and the cause, which
    it wraps.  When reading the body fails, it returns the empty string
    with "failed to read federation response: " and the cause, wrapped,
    without looking at the status. *)
Theorem X13_federation_transport_errors
    (f : FederationClient) (ctx : Context) (creds : Credentials)
    (durationSeconds : Z) (t : trace) (r : string * option error)
    (Hrun : runs (BuildConsoleURL f ctx creds durationSeconds) t r) :
  (forall req resp cause,
     In (EvDo req (resp, Some cause)) t ->
     t = [EvDo req (resp, Some cause)]
     /\ r = ("", Some (wrapError
                         ("failed to request signin token: " ++ Error cause)
                         cause)))
  /\ (forall body data cause,
        In (EvReadAll body (data, Some cause)) t ->
        r = ("", Some (wrapError
                         ("failed to read federation response: "
                            ++ Error cause)
                         cause))).
Proof.
  unfold BuildConsoleURL, defer, trigger in Hrun.
  run_inv Hrun;
    (split;
     [ intros req resp cause Hdo; in_cases Hdo; split; reflexivity
     | intros body data cause Hread; in_cases Hread; reflexivity ]).
Qed.

(** X14.  When the endpoint answers with a status other than 200 and the
    body is read, the error of [BuildConsoleURL] is
    "federation endpoint returned HTTP ", the status in decimal, ": " and
    the body as received.  With status 200: a body that does not decode
    gives "failed to parse signin token response: " and the decoder's
    error, wrapped; a body that decodes to an empty token gives
    "received empty signin token from federation endpoint". *)
Theorem X14_federation_response_errors
    (f : FederationClient) (ctx : Context) (creds : Credentials)
    (durationSeconds : Z) (t : trace) (r : string * option error)
    (req : Request) (resp : Response) (body : string)
    (Hrun : runs (BuildConsoleURL f ctx creds durationSeconds) t r)
    (Hdo : In (EvDo req (resp, None)) t)
    (Hread : In (EvReadAll (Body resp) (body, None)) t) :
  (StatusCode resp <> StatusOK ->
   r = ("", Some (errorString
                    ("federation endpoint returned HTTP "
                       ++ Sprintd (StatusCode resp) ++ ": " ++ body))))
  /\ (StatusCode resp = StatusOK ->
      forall v cause,
        json_Unmarshal body {| SigninToken := "" |} = (v, Some cause) ->
        r = ("", Some (wrapError
                         ("failed to parse signin token response: "
                            ++ Error cause)
                         cause)))
  /\ (StatusCode resp = StatusOK ->
      json_Unmarshal body {| SigninToken := "" |}
      = ({| SigninToken := "" |}, None) ->
      r = ("", Some (errorString
                       "received empty signin token from federation endpoint"))).
Proof.
  unfold BuildConsoleURL, defer, trigger in Hrun.
  run_inv Hrun; in_cases Hdo; in_cases Hread; clean_tests;
    (split; [intros Hs; try congruence; reflexivity|]);
    (split;
     [ intros Hs v cause Hj; try congruence;
       match goal with
       | H : json_Unmarshal _ _ = _ |- _ =>
           rewrite H in Hj; injection Hj as; subst
       end;
       try discriminate; reflexivity
     | intros Hs Hj; try congruence;
       match goal with
       | H : json_Unmarshal _ _ = _ |- _ =>
           rewrite H in Hj; injection Hj as; subst
       end;
       try discriminate; simpl in *; try congruence; reflexivity ]).
Qed.

End FederationFurther.

Lemma X10_federation_closes_body_witness :
  In (EvDo testRequest ({| StatusCode := 403; Body := Handle 7 |}, None))
     federationForbiddenTrace
  /\ length (filter isClose federationForbiddenTrace) = 1.
Proof.
  assert (Hin : In (EvDo testRequest
                      ({| StatusCode := 403; Body := Handle 7 |}, None))
                   federationForbiddenTrace)
    by (unfold federationForbiddenTrace; in_find).
  split; [exact Hin|].
  destruct (@X10_federation_closes_body exampleLib testClient Background
              sessionCreds 3600 federationForbiddenTrace _
              federationForbidden_runs) as [Hclose _].
  destruct (Hclose _ _ Hin) as [Hone _].
  exact Hone.
Defined.

Lemma X11_federation_request_witness :
  length (filter isDo federationSuccessTrace) <= 1.
Proof.
  destruct (@X11_federation_request exampleLib testClient Background
              sessionCreds 3600 federationSuccessTrace _
              federationSuccess_runs) as [Hone _].
  exact Hone.
Defined.

Lemma X12_federation_ignores_close_error_witness :
  runs (@BuildConsoleURL exampleLib testClient Background sessionCreds 3600)
       (withCloseAnswer (Some (errorString "already closed"))
          federationSuccessTrace)
       (federationSuccessURL, None).
Proof.
  exact (@X12_federation_ignores_close_error exampleLib testClient Background
           sessionCreds 3600 federationSuccessTrace _
           (Some (errorString "already closed")) federationSuccess_runs).
Defined.

Lemma X13_federation_transport_errors_witness :
  In (EvDo networkErrorRequest
        ({| StatusCode := 0; Body := Handle 0 |},
         Some (errorString "network error")))
     networkErrorTrace
  /\ networkErrorTrace
     = [ EvDo networkErrorRequest
           ({| StatusCode := 0; Body := Handle 0 |},
            Some (errorString "network error")) ].
Proof.
  assert (Hin : In (EvDo networkErrorRequest
                      ({| StatusCode := 0; Body := Handle 0 |},
                       Some (errorString "network error")))
                   networkErrorTrace)
    by (unfold networkErrorTrace; in_find).
  split; [exact Hin|].
  destruct (@X13_federation_transport_errors exampleLib networkErrorClient
              Background sessionCreds 3600 networkErrorTrace _
              networkError_runs) as [Hdo _].
  destruct (Hdo _ _ _ Hin) as [Htrace _].
  exact Htrace.
Defined.

Lemma X14_federation_response_errors_witness :
  In (EvDo testRequest ({| StatusCode := 403; Body := Handle 7 |}, None))
     federationForbiddenTrace
  /\ (403%Z <> StatusOK ->
      ("", Some (errorString
                   "federation endpoint returned HTTP 403: forbidden"))
      = ("", Some (errorString
                     ("federation endpoint returned HTTP "
                        ++ Sprintd 403 ++ ": " ++ "forbidden")))).
Proof.
  assert (Hdo : In (EvDo testRequest
                      ({| StatusCode := 403; Body := Handle 7 |}, None))
                   federationForbiddenTrace)
    by (unfold federationForbiddenTrace; in_find).
  split; [exact Hdo|].
  refine (proj1 (@X14_federation_response_errors exampleLib testClient
                   Background sessionCreds 3600 federationForbiddenTrace _
                   testRequest {| StatusCode := 403; Body := Handle 7 |}
                   "forbidden" federationForbidden_runs Hdo _)).
  unfold federationForbiddenTrace. in_find.
Defined.

(** ** The SDK service *)

(** Steps through one call of an execution of a service method. *)
Ltac sdk_inv H :=
  repeat (simpl in H;
          match type of H with
          | exists _, _ =>
              let x := fresh "x" in
              let t' := fresh "t" in
              destruct H as (x & t' & -> & H)
          | _ = [] /\ _ = _ => destruct H as [-> ->]
          | SDK.runs (match ?e with _ => _ end) _ _ => destruct e eqn:?
          | SDK.runs (SDK.bind (match ?e with _ => _ end) _) _ _ =>
              destruct e eqn:?
          end).

Ltac sdk_build :=
  repeat (simpl;
          match goal with
          | |- exists _, _ => eexists; eexists; split; [reflexivity|]
          | |- _ = [] /\ _ = _ => split; reflexivity
          end).

Ltac sdk_unfold H :=
  unfold SDK.GetCallerIdentity, SDK.RetrieveCredentials, SDK.GetSessionToken,
    SDK.loadConfig, SDK.trigger in H.

Lemma loadFails_runs :
  SDK.runs (SDK.GetCallerIdentity Background "dev-profile")
    SDK.loadFailsTrace
    ({| Arn := "" |},
     Some (wrapError "failed to load AWS config: profile not found"
             (errorString "profile not found"))).
Proof. unfold SDK.loadFailsTrace. sdk_build. Qed.

Lemma emptyCredentials_runs :
  SDK.runs (SDK.GetSessionToken Background "" 43200)
    SDK.emptyCredentialsTrace
    (zeroCredentials,
     Some (errorString "STS GetSessionToken returned empty credentials")).
Proof. unfold SDK.emptyCredentialsTrace. sdk_build. Qed.

Lemma partialCredentials_runs :
  SDK.runs (SDK.GetSessionToken Background "" 43200)
    SDK.partialCredentialsTrace
    ({| AccessKeyID := "ASIA_TEMP"; SecretAccessKey := "temp-secret";
        SessionToken := "" |}, None).
Proof. unfold SDK.partialCredentialsTrace. sdk_build. Qed.

(** X15.  Each method of the service loads the configuration exactly
    once, as its first call, and asks for the shared-config profile
    exactly when the profile is not empty: with an empty profile no option
    is passed, so that the SDK applies its own defaults. *)
Theorem X15_service_loads_config_once
    (ctx : Context) (profile : string) (durationSeconds : Z)
    (t : SDK.trace) :
  (exists r, SDK.runs (SDK.GetCallerIdentity ctx profile) t r)
  \/ (exists r, SDK.runs (SDK.RetrieveCredentials ctx profile) t r)
  \/ (exists r,
        SDK.runs (SDK.GetSessionToken ctx profile durationSeconds) t r) ->
  exists out rest,
    t = SDK.EvLoadDefaultConfig ctx
          (if profile =? "" then []
           else [SDK.WithSharedConfigProfile profile]) out :: rest
    /\ filter SDK.isLoad rest = [].
Proof.
  intros [[r H]|[[r H]|[r H]]]; sdk_unfold H;
    destruct (profile =? ""); simpl in H;
    sdk_inv H; do 2 eexists; split; reflexivity.
Qed.

Lemma X15_service_loads_config_once_witness :
  exists out rest,
    SDK.loadFailsTrace
    = SDK.EvLoadDefaultConfig Background
        [SDK.WithSharedConfigProfile "dev-profile"] out :: rest
    /\ filter SDK.isLoad rest = [].
Proof.
  apply (X15_service_loads_config_once Background "dev-profile" 0
           SDK.loadFailsTrace).
  left. eexists. exact loadFails_runs.
Defined.

(** X16.  When the configuration cannot be loaded, a method of the
    service makes no further call: no STS client is made and no
    credentials are retrieved.  It returns the zero value with
    "failed to load AWS config: " and the cause, which it wraps. *)
Theorem X16_service_config_failure
    (ctx : Context) (profile : string) (durationSeconds : Z)
    (t : SDK.trace) (lctx : Context) (opts : list SDK.LoadOption)
    (cfg : SDK.Config) (cause : error)
    (Hin : In (SDK.EvLoadDefaultConfig lctx opts (cfg, Some cause)) t) :
  (forall r,
     SDK.runs (SDK.GetCallerIdentity ctx profile) t r ->
     t = [SDK.EvLoadDefaultConfig lctx opts (cfg, Some cause)]
     /\ r = ({| Arn := "" |},
             Some (wrapError ("failed to load AWS config: " ++ Error cause)
                     cause)))
  /\ (forall r,
        SDK.runs (SDK.RetrieveCredentials ctx profile) t r ->
        t = [SDK.EvLoadDefaultConfig lctx opts (cfg, Some cause)]
        /\ r = (zeroCredentials,
                Some (wrapError
                        ("failed to load AWS config: " ++ Error cause)
                        cause)))
  /\ (forall r,
        SDK.runs (SDK.GetSessionToken ctx profile durationSeconds) t r ->
        t = [SDK.EvLoadDefaultConfig lctx opts (cfg, Some cause)]
        /\ r = (zeroCredentials,
                Some (wrapError
                        ("failed to load AWS config: " ++ Error cause)
                        cause))).
Proof.
  split; [|split]; intros r H; sdk_unfold H; sdk_inv H; in_cases Hin;
    split; reflexivity.
Qed.

Lemma X16_service_config_failure_witness :
  In (SDK.EvLoadDefaultConfig Background
        [SDK.WithSharedConfigProfile "dev-profile"]
        (SDK.zeroConfig, Some (errorString "profile not found")))
     SDK.loadFailsTrace
  /\ SDK.loadFailsTrace
     = [ SDK.EvLoadDefaultConfig Background
           [SDK.WithSharedConfigProfile "dev-profile"]
           (SDK.zeroConfig, Some (errorString "profile not found")) ].
Proof.
  assert (Hin : In (SDK.EvLoadDefaultConfig Background
                      [SDK.WithSharedConfigProfile "dev-profile"]
                      (SDK.zeroConfig,
                       Some (errorString "profile not found")))
                   SDK.loadFailsTrace)
    by (unfold SDK.loadFailsTrace; simpl; left; reflexivity).
  split; [exact Hin|].
  destruct (X16_service_config_failure Background "dev-profile" 0
              SDK.loadFailsTrace _ _ _ _ Hin) as [Hgci _].
  destruct (Hgci _ loadFails_runs) as [Htrace _].
  exact Htrace.
Defined.

(** X17.  Every method of the service returns the zero value whenever it
    returns an error, and an error of STS or of the credentials provider
    is returned as it is, not wrapped. *)
Theorem X17_service_errors
    (ctx : Context) (profile : string) (durationSeconds : Z)
    (t : SDK.trace) :
  (forall r,
     SDK.runs (SDK.GetCallerIdentity ctx profile) t r ->
     (snd r <> None -> fst r = {| Arn := "" |})
     /\ (forall client c out cause,
           In (SDK.EvStsGetCallerIdentity client c (out, Some cause)) t ->
           snd r = Some cause))
  /\ (forall r,
        SDK.runs (SDK.RetrieveCredentials ctx profile) t r ->
        (snd r <> None -> fst r = zeroCredentials)
        /\ (forall cfg c out cause,
              In (SDK.EvRetrieve cfg c (out, Some cause)) t ->
              snd r = Some cause))
  /\ (forall r,
        SDK.runs (SDK.GetSessionToken ctx profile durationSeconds) t r ->
        (snd r <> None -> fst r = zeroCredentials)
        /\ (forall client c params out cause,
              In (SDK.EvStsGetSessionToken client c params
                    (out, Some cause)) t ->
              snd r = Some cause)).
Proof.
  split; [|split]; intros r H; sdk_unfold H; sdk_inv H; simpl;
    (split;
     [ intros Hr; try reflexivity; congruence
     | intros * Hin; in_cases Hin; reflexivity ]).
Qed.

(** X18.  [GetSessionToken] asks STS for the given duration, on a client
    made from the configuration it loaded.  When STS answers without
    error but without credentials, the method returns the zero
    credentials and the error
    "STS GetSessionToken returned empty credentials".  When STS answers
    with credentials, they are returned with a nil error, a missing field
    becoming the empty string: a missing session token gives credentials
    whose [SessionToken] is empty, and no error. *)
Theorem X18_service_session_token
    (ctx : Context) (profile : string) (durationSeconds : Z)
    (t : SDK.trace) (r : Credentials * option error)
    (client : SDK.stsAPI) (c : Context) (params : SDK.GetSessionTokenInput)
    (out : SDK.GetSessionTokenOutput)
    (Hrun : SDK.runs (SDK.GetSessionToken ctx profile durationSeconds) t r)
    (Hin : In (SDK.EvStsGetSessionToken client c params (out, None)) t) :
  c = ctx
  /\ SDK.DurationSeconds params = Some durationSeconds
  /\ (exists lctx opts cfg,
        In (SDK.EvLoadDefaultConfig lctx opts (cfg, None)) t
        /\ In (SDK.EvNewFromConfig cfg client) t)
  /\ (SDK.OutputCredentials out = None ->
      r = (zeroCredentials,
           Some (errorString
                   "STS GetSessionToken returned empty credentials")))
  /\ (forall sc,
        SDK.OutputCredentials out = Some sc ->
        r = ({| AccessKeyID := SDK.ToString (SDK.StsAccessKeyId sc);
                SecretAccessKey := SDK.ToString (SDK.StsSecretAccessKey sc);
                SessionToken := SDK.ToString (SDK.StsSessionToken sc) |},
             None)).
Proof.
  sdk_unfold Hrun. sdk_inv Hrun; in_cases Hin;
    (split; [reflexivity|]); (split; [reflexivity|]);
    (split; [do 3 eexists; split; in_find|]);
    split; intros; try congruence; try reflexivity.
Qed.

Lemma X18_service_session_token_witness :
  In (SDK.EvStsGetSessionToken (SDK.ClientOf 1) Background
        {| SDK.DurationSeconds := Some 43200%Z |}
        ({| SDK.OutputCredentials := None |}, None))
     SDK.emptyCredentialsTrace
  /\ (@None SDK.stsCredentials = None ->
      (zeroCredentials,
       Some (errorString "STS GetSessionToken returned empty credentials"))
      = (zeroCredentials,
         Some (errorString
                 "STS GetSessionToken returned empty credentials"))).
Proof.
  assert (Hin : In (SDK.EvStsGetSessionToken (SDK.ClientOf 1) Background
                      {| SDK.DurationSeconds := Some 43200%Z |}
                      ({| SDK.OutputCredentials := None |}, None))
                   SDK.emptyCredentialsTrace)
    by (unfold SDK.emptyCredentialsTrace; simpl; tauto).
  split; [exact Hin|].
  destruct (X18_service_session_token Background "" 43200
              SDK.emptyCredentialsTrace _ _ _ _ _
              emptyCredentials_runs Hin) as (_ & _ & _ & Hnil & _).
  exact Hnil.
Defined.

Lemma X17_service_errors_witness :
  SDK.runs (SDK.GetCallerIdentity Background "dev-profile")
    SDK.loadFailsTrace
    ({| Arn := "" |},
     Some (wrapError "failed to load AWS config: profile not found"
             (errorString "profile not found")))
  /\ fst ({| Arn := "" |},
          Some (wrapError "failed to load AWS config: profile not found"
                  (errorString "profile not found"))) = {| Arn := "" |}.
Proof.
  split; [exact loadFails_runs|].
  destruct (X17_service_errors Background "dev-profile" 0
              SDK.loadFailsTrace) as [Hgci _].
  destruct (Hgci _ loadFails_runs) as [Hzero _].
  apply Hzero. simpl. discriminate.
Defined.

(** X19.  When STS answers the identity request without error,
    [GetCallerIdentity] returns, with a nil error, the ARN of the answer,
    and the empty ARN when the answer holds none; the request was made on
    the one client of the execution, made from the configuration that was
    loaded. *)
Theorem X19_service_identity
    (ctx : Context) (profile : string)
    (t : SDK.trace) (r : Identity * option error)
    (client : SDK.stsAPI) (c : Context) (out : SDK.GetCallerIdentityOutput)
    (Hrun : SDK.runs (SDK.GetCallerIdentity ctx profile) t r)
    (Hin : In (SDK.EvStsGetCallerIdentity client c (out, None)) t) :
  r = ({| Arn := SDK.ToString (SDK.OutputArn out) |}, None)
  /\ (SDK.OutputArn out = None -> r = ({| Arn := "" |}, None))
  /\ c = ctx
  /\ length (filter SDK.isNewFromConfig t) = 1
  /\ exists lctx opts cfg,
       In (SDK.EvLoadDefaultConfig lctx opts (cfg, None)) t
       /\ In (SDK.EvNewFromConfig cfg client) t.
Proof.
  sdk_unfold Hrun. sdk_inv Hrun; in_cases Hin;
    (split; [reflexivity|]);
    (split; [intros Harn; simpl in Harn; rewrite Harn; reflexivity|]);
    (split; [reflexivity|]); (split; [reflexivity|]);
    do 3 eexists; split; in_find.
Qed.

(** X20.  [RetrieveCredentials] never makes an STS client: it asks the
    credentials provider of the configuration it loaded, once.  When the
    provider answers without error, the access key, the secret key and
    the session token are returned unchanged, with a nil error. *)
Theorem X20_service_retrieve
    (ctx : Context) (profile : string)
    (t : SDK.trace) (r : Credentials * option error)
    (Hrun : SDK.runs (SDK.RetrieveCredentials ctx profile) t r) :
  filter SDK.isNewFromConfig t = []
  /\ (forall cfg c out,
        In (SDK.EvRetrieve cfg c out) t ->
        c = ctx
        /\ (exists lctx opts,
              t = [ SDK.EvLoadDefaultConfig lctx opts (cfg, None);
                    SDK.EvRetrieve cfg c out ])
        /\ (snd out = None ->
            r = ({| AccessKeyID := SDK.AwsAccessKeyID (fst out);
                    SecretAccessKey := SDK.AwsSecretAccessKey (fst out);
                    SessionToken := SDK.AwsSessionToken (fst out) |},
                 None))).
Proof.
  sdk_unfold Hrun. sdk_inv Hrun;
    (split; [reflexivity|]);
    intros ? ? ? Hin; in_cases Hin;
    (split; [reflexivity|]);
    (split; [do 2 eexists; reflexivity|]);
    simpl; intros Hnil; try discriminate Hnil; reflexivity.
Qed.

(** X21.  The workflow passes resolved credentials on as they are: the
    credentials that GetSessionToken returns without error are handed to
    BuildConsoleURL in that same execution, whatever they hold (so also
    when their session token is empty), and so are retrieved credentials
    that carry a session token. *)
Theorem X21_workflow_passes_credentials_on
    (ctx : Context) (profile : string) (deps : runDeps)
    (t : trace) (r : option error)
    (Hrun : runs (runWorkflow ctx profile deps) t r) :
  (forall gctx gprofile gd creds,
     In (EvGetSessionToken gctx gprofile gd (creds, None)) t ->
     exists out,
       In (EvBuildConsoleURL ctx creds (deps_sessionDuration deps) out) t)
  /\ (forall rctx rprofile creds,
        In (EvRetrieveCredentials rctx rprofile (creds, None)) t ->
        SessionToken creds <> "" ->
        exists out,
          In (EvBuildConsoleURL ctx creds (deps_sessionDuration deps) out) t).
Proof.
  unfold runWorkflow, Fprintln, Fprintf, trigger in Hrun.
  run_inv Hrun; clean_tests;
    (split;
     [ intros gctx gprofile gd creds Hin; in_cases Hin; eexists; in_find
     | intros rctx rprofile creds Hin Htoken; in_cases Hin;
       try congruence; eexists; in_find ]).
Qed.

Lemma X21_workflow_passes_credentials_on_witness :
  In (EvGetSessionToken Background "dev-profile" 43200 (tokenlessCreds, None))
     tokenlessTrace
  /\ exists out,
       In (EvBuildConsoleURL Background tokenlessCreds 43200 out)
          tokenlessTrace.
Proof.
  assert (Hin : In (EvGetSessionToken Background "dev-profile" 43200
                      (tokenlessCreds, None)) tokenlessTrace)
    by (unfold tokenlessTrace; in_find).
  split; [exact Hin|].
  assert (Hrun : runs (runWorkflow Background "dev-profile"
                         (defaultRunDeps "linux")) tokenlessTrace
                      (Some (wrapError
                               "failed to build console URL: federation endpoint returned HTTP 400: "
                               (errorString
                                  "federation endpoint returned HTTP 400: "))))
    by (unfold tokenlessTrace; run_build).
  destruct (X21_workflow_passes_credentials_on Background "dev-profile"
              (defaultRunDeps "linux") tokenlessTrace _ Hrun) as [Hgst _].
  exact (Hgst _ _ _ _ Hin).
Defined.

Lemma X19_service_identity_witness :
  In (SDK.EvStsGetCallerIdentity (SDK.ClientOf 1) Background
        ({| SDK.OutputArn := None |}, None))
     identityWithoutArnTrace
  /\ (zeroIdentity, @None error) = ({| Arn := "" |}, None).
Proof.
  assert (Hin : In (SDK.EvStsGetCallerIdentity (SDK.ClientOf 1) Background
                      ({| SDK.OutputArn := None |}, None))
                   identityWithoutArnTrace)
    by (unfold identityWithoutArnTrace; simpl; tauto).
  split; [exact Hin|].
  assert (Hrun : SDK.runs (SDK.GetCallerIdentity Background "")
                   identityWithoutArnTrace (zeroIdentity, None))
    by (unfold identityWithoutArnTrace; sdk_build).
  destruct (X19_service_identity Background "" identityWithoutArnTrace _
              _ _ _ Hrun Hin) as (_ & Hnone & _).
  exact (Hnone eq_refl).
Defined.

Lemma X20_service_retrieve_witness :
  filter SDK.isNewFromConfig providerTrace = [].
Proof.
  assert (Hrun : SDK.runs (SDK.RetrieveCredentials Background "dev-profile")
                   providerTrace (sessionCreds, None))
    by (unfold providerTrace; sdk_build).
  destruct (X20_service_retrieve Background "dev-profile" providerTrace _
              Hrun) as [Hnone _].
  exact Hnone.
Defined.
